(** * ai-code-reviewer: the diff-to-feedback pipeline of [src/main.ts]

    A shallow embedding of the GitHub action's single source file and the
    properties of its specification.

    - JavaScript strings are [string]s, read as sequences of code units
      below 256; template literals are concatenations.
    - JavaScript numbers are IEEE 754 binary64 values, [spec_float] of the
      standard library; [Number] is the language's string-to-number
      conversion, correctly rounded.
    - [async] functions are computations over an explicit run state (the
      outside world and the trace of collaborator calls) that either
      complete normally or throw.  The hosting platform, the model client,
      the parse-diff and minimatch libraries and the action's inputs are
      collaborators, left abstract.
    - Console output is not modelled, but the reads made for it that can
      throw are: a thrown value is described by what the program reads of
      it.

    The repository holds a second copy of the file that differs in the
    wording of the prompt, the options of the model call and the logging
    (also in what its [catch] blocks read of the caught value); the
    embedding follows [src/main.ts]. *)

From Stdlib Require Import ZArith List String Ascii Bool Lia.
From Stdlib Require Import Floats.SpecFloat.
Import ListNotations.

Local Open Scope string_scope.
Local Open Scope Z_scope.

(** ** JavaScript strings *)

Module JsString.

Definition code (c : ascii) : Z := Z.of_N (N_of_ascii c).

(** White space and line terminators ([String.prototype.trim] and the
    [StrWhiteSpaceChar] of string-to-number conversion), among the code
    units below 256: TAB, LF, VT, FF, CR, SP and NBSP. *)
Definition is_white_space (c : ascii) : bool :=
  let n := code c in
  ((9 <=? n) && (n <=? 13)) || (n =? 32) || (n =? 160).

Fixpoint trimStart (s : string) : string :=
  match s with
  | EmptyString => EmptyString
  | String c r => if is_white_space c then trimStart r else s
  end.

Fixpoint trimEnd (s : string) : string :=
  match s with
  | EmptyString => EmptyString
  | String c r =>
      match trimEnd r with
      | EmptyString => if is_white_space c then EmptyString else String c EmptyString
      | r' => String c r'
      end
  end.

(** [s.trim()] *)
Definition trim (s : string) : string := trimEnd (trimStart s).

(** [s.split(",")]: the pieces between commas; always at least one. *)
Fixpoint split_from (sep : ascii) (piece : string) (s : string) : list string :=
  match s with
  | EmptyString => [piece]
  | String c r =>
      if Ascii.eqb c sep then piece :: split_from sep EmptyString r
      else split_from sep (piece ++ String c EmptyString) r
  end.

Definition split (sep : ascii) (s : string) : list string :=
  split_from sep EmptyString s.

(** A string is falsy exactly when it is empty. *)
Definition truthy (s : string) : bool :=
  match s with EmptyString => false | String _ _ => true end.

(** [Number.prototype.toString] on an integer of ordinary size. *)
Definition digit_char (d : Z) : ascii := ascii_of_N (Z.to_N (48 + d)).

Fixpoint decimal_digits (fuel : nat) (n : Z) (acc : string) : string :=
  match fuel with
  | O => acc
  | S fuel' =>
      let acc' := String (digit_char (n mod 10)) acc in
      if n <? 10 then acc' else decimal_digits fuel' (n / 10) acc'
  end.

Definition of_integer (n : Z) : string :=
  if n <? 0 then "-" ++ decimal_digits (Z.to_nat (Z.log2 (- n)) + 1) (- n) ""
  else decimal_digits (Z.to_nat (Z.log2 n) + 1) n "".

End JsString.

(** ** JavaScript numbers and [Number(string)] *)

Module JsNumber.

Definition number := spec_float.

Definition prec : Z := 53.
Definition emax : Z := 1024.

Definition NaN : number := S754_nan.
Definition Infinity (neg : bool) : number := S754_infinity neg.

(** The number nearest to the integer [n] (ties to even). *)
Definition of_Z (n : Z) : number := binary_normalize prec emax n 0 false.

(** [Number.isInteger] together with the integer denoted. *)
Definition to_Z (x : number) : option Z :=
  match x with
  | S754_zero _ => Some 0
  | S754_finite s m e =>
      if 0 <=? e then Some (cond_Zopp s (Zpos m * 2 ^ e))
      else if Zpos m mod 2 ^ (- e) =? 0
           then Some (cond_Zopp s (Zpos m / 2 ^ (- e)))
           else None
  | _ => None
  end.

Definition is_non_negative_integer (x : number) : bool :=
  match to_Z x with
  | Some z => 0 <=? z
  | None => false
  end.

Definition is_negative (x : number) : bool := SFltb x (S754_zero false).

(** *** The grammar of [StringNumericLiteral] *)

(** Value of [c] as a digit in [base] (2, 8, 10 or 16). *)
Definition digit_of (base : Z) (c : ascii) : option Z :=
  let n := JsString.code c in
  let v :=
    if (48 <=? n) && (n <=? 57) then Some (n - 48)
    else if (97 <=? n) && (n <=? 102) then Some (n - 87)
    else if (65 <=? n) && (n <=? 70) then Some (n - 55)
    else None in
  match v with
  | Some d => if d <? base then Some d else None
  | None => None
  end.

(** The longest prefix of digits, as digit values, and what follows. *)
Fixpoint take_digits (base : Z) (s : string) : list Z * string :=
  match s with
  | EmptyString => ([], EmptyString)
  | String c r =>
      match digit_of base c with
      | Some d => let (ds, rest) := take_digits base r in (d :: ds, rest)
      | None => ([], s)
      end
  end.

Definition digits_value (base : Z) (ds : list Z) : Z :=
  fold_left (fun acc d => acc * base + d) ds 0.

(** An optional sign. *)
Definition take_sign (s : string) : bool * string :=
  match s with
  | String "-" r => (true, r)
  | String "+" r => (false, r)
  | _ => (false, s)
  end.

(** [ExponentPart], optional, up to the end of the string. *)
Definition exponent_part (s : string) : option Z :=
  match s with
  | EmptyString => Some 0
  | String c r =>
      if Ascii.eqb c "e" || Ascii.eqb c "E" then
        let (neg, r') := take_sign r in
        match take_digits 10 r' with
        | ((_ :: _) as ds, EmptyString) => Some (cond_Zopp neg (digits_value 10 ds))
        | _ => None
        end
      else None
  end.

(** The mathematical value of a literal: [m * 10 ^ e], or infinite. *)
Inductive literal_value :=
| MV_infinity
| MV_decimal (m e : Z).

(** [StrUnsignedDecimalLiteral] *)
Definition unsigned_decimal (s : string) : option literal_value :=
  if String.eqb s "Infinity" then Some MV_infinity
  else
    let (ip, r1) := take_digits 10 s in
    let '(fp, r2, well_formed) :=
      match r1 with
      | String "." r =>
          let (fp, r2) := take_digits 10 r in
          (fp, r2, negb (Nat.eqb (List.length ip + List.length fp) 0))
      | _ => ([], r1, negb (Nat.eqb (List.length ip) 0))
      end in
    if well_formed then
      match exponent_part r2 with
      | Some e => Some (MV_decimal (digits_value 10 (ip ++ fp)%list) (e - Z.of_nat (List.length fp)))
      | None => None
      end
    else None.

(** [NonDecimalIntegerLiteral]: [0x], [0o] and [0b] literals, unsigned. *)
Definition non_decimal (s : string) : option Z :=
  match s with
  | String "0" (String p r) =>
      let base :=
        if Ascii.eqb p "x" || Ascii.eqb p "X" then Some 16
        else if Ascii.eqb p "o" || Ascii.eqb p "O" then Some 8
        else if Ascii.eqb p "b" || Ascii.eqb p "B" then Some 2
        else None in
      match base with
      | Some b =>
          match take_digits b r with
          | ((_ :: _) as ds, EmptyString) => Some (digits_value b ds)
          | _ => None
          end
      | None => None
      end
  | _ => None
  end.

(** *** Rounding the mathematical value to a number *)

Definition round_decimal (neg : bool) (m e : Z) : number :=
  match m with
  | Z0 => S754_zero neg
  | Zpos p =>
      if 0 <=? e then binary_normalize prec emax (cond_Zopp neg (Zpos p * 10 ^ e)) 0 neg
      else
        let '(q, e', l) := SFdiv_core_binary prec emax (Zpos p) 0 (10 ^ (- e)) 0 in
        binary_round_aux prec emax neg q e' l
  | Zneg _ => NaN
  end.

(** [StringToNumber] on a string already trimmed. *)
Definition of_trimmed (s : string) : number :=
  match s with
  | EmptyString => S754_zero false
  | _ =>
      match non_decimal s with
      | Some n => of_Z n
      | None =>
          let (neg, r) := take_sign s in
          match unsigned_decimal r with
          | Some MV_infinity => Infinity neg
          | Some (MV_decimal m e) => round_decimal neg m e
          | None => NaN
          end
      end
  end.

(** [Number(s)] for a string [s]. *)
Definition Number (s : string) : number := of_trimmed (JsString.trim s).

End JsNumber.

(** ** The data model *)

(** One changed line, as the parse-diff library gives it.  An added line
    carries [ln], its number in the new file; a deleted line carries [ln],
    its number in the old file; a context line carries [ln1] (old file) and
    [ln2] (new file). *)
Inductive Change :=
| AddChange (ln : Z) (content : string)
| DeleteChange (ln : Z) (content : string)
| NormalChange (ln1 ln2 : Z) (content : string).

Record Chunk := {
  content : string;
  changes : list Change;
  oldStart : Z;
  oldLines : Z;
  newStart : Z;
  newLines : Z
}.

(** [from] and [to] are optional in parse-diff's [File]. *)
Record File := {
  chunks : list Chunk;
  deletions : Z;
  additions : Z;
  from : option string;
  to : option string
}.

Record PRDetails := {
  owner : string;
  repo : string;
  pull_number : Z;
  title : string;
  description : string
}.

(** One entry of the model's [reviews] array. *)
Record Finding := {
  lineNumber : string;
  reviewComment : string
}.

(** One inline comment of the review to submit. *)
Record Comment := {
  body : string;
  path : string;
  line : JsNumber.number
}.

(** Property reads on a change: [c.ln], [c.ln2] and [c.content]; a property
    that the variant does not have reads as [undefined]. *)
Definition change_ln (c : Change) : option Z :=
  match c with
  | AddChange ln _ | DeleteChange ln _ => Some ln
  | NormalChange _ _ _ => None
  end.

Definition change_ln2 (c : Change) : option Z :=
  match c with
  | NormalChange _ ln2 _ => Some ln2
  | _ => None
  end.

Definition change_content (c : Change) : string :=
  match c with
  | AddChange _ s | DeleteChange _ s | NormalChange _ _ s => s
  end.

(** The same change in the vocabulary of the specification's LineChange. *)
Definition newLineNumber (c : Change) : option Z :=
  match c with
  | AddChange ln _ => Some ln
  | DeleteChange _ _ => None
  | NormalChange _ ln2 _ => Some ln2
  end.

Definition oldLineNumber (c : Change) : option Z :=
  match c with
  | AddChange _ _ => None
  | DeleteChange ln _ => Some ln
  | NormalChange ln1 _ _ => Some ln1
  end.

(** ** createPrompt *)

Definition nl : string := String (ascii_of_nat 10) EmptyString.
Definition dquote : string := String (ascii_of_nat 34) EmptyString.
Definition fence : string := "```".

(** A value of type [number | undefined] inside a template literal. *)
Definition interpolate_number (v : option Z) : string :=
  match v with
  | Some n => JsString.of_integer n
  | None => "undefined"
  end.

Definition interpolate_string (v : option string) : string :=
  match v with
  | Some s => s
  | None => "undefined"
  end.

(** [c.ln ? c.ln : c.ln2]: zero and [undefined] are falsy. *)
Definition resolved_line (c : Change) : option Z :=
  match change_ln c with
  | Some ln => if ln =? 0 then change_ln2 c else Some ln
  | None => change_ln2 c
  end.

(** [`${c.ln ? c.ln : c.ln2} ${c.content}`] *)
Definition render_change (c : Change) : string :=
  interpolate_number (resolved_line c) ++ " " ++ change_content c.

(** The template up to and including the opening fence line. *)
Definition prompt_preamble (file : File) (prDetails : PRDetails) : string :=
  "Your task is to review pull requests. Instructions:" ++ nl ++
  "- Do not give positive comments or compliments." ++ nl ++
  "- Provide comments and suggestions ONLY if there is something to improve, otherwise "
    ++ dquote ++ "reviews" ++ dquote ++ " should be an empty array." ++ nl ++
  "- Write the comment in GitHub Markdown format." ++ nl ++
  "- Use the given description only for the overall context and only comment the code." ++ nl ++
  "- IMPORTANT: NEVER suggest adding comments to the code." ++ nl ++
  nl ++
  "Review the following code diff in the file " ++ dquote ++ interpolate_string (to file) ++ dquote
    ++ " and take the pull request title and description into account when writing the response." ++ nl ++
  "  " ++ nl ++
  "Pull request title: " ++ title prDetails ++ nl ++
  "Pull request description:" ++ nl ++
  nl ++
  "---" ++ nl ++
  description prDetails ++ nl ++
  "---" ++ nl ++
  nl ++
  "Git diff to review:" ++ nl ++
  nl ++
  fence ++ "diff" ++ nl.

Definition createPrompt (file : File) (chunk : Chunk) (prDetails : PRDetails) : string :=
  prompt_preamble file prDetails ++
  content chunk ++ nl ++
  String.concat nl (map render_change (changes chunk)) ++ nl ++
  fence ++ nl.

(** ** createComment *)

(** [aiResponses.flatMap(...)]: the callback gives [[]] when [file.to] is
    falsy (undefined or empty) and one record otherwise. *)
Definition createComment (file : File) (chunk : Chunk) (aiResponses : list Finding)
  : list Comment :=
  flat_map
    (fun aiResponse =>
       match to file with
       | None => []
       | Some file_to =>
           if JsString.truthy file_to then
             [ {| body := reviewComment aiResponse;
                  path := file_to;
                  line := JsNumber.Number (lineNumber aiResponse) |} ]
           else []
       end)
    aiResponses.

(** ** The path filter of [main] *)

(** [core.getInput("exclude").split(",").map((s) => s.trim())] *)
Definition excludePatterns (exclude : string) : list string :=
  map JsString.trim (JsString.split "," exclude).

(** [file.to ?? ""] *)
Definition to_or_empty (file : File) : string :=
  match to file with
  | Some p => p
  | None => EmptyString
  end.

Section PathFilter.

(** The glob matcher of the minimatch library: [minimatch path pattern]. *)
Variable minimatch : string -> string -> bool.

(** [parsedDiff.filter((file) => !excludePatterns.some((pattern) =>
    minimatch(file.to ?? "", pattern)))] *)
Definition filteredDiff (patterns : list string) (parsedDiff : list File) : list File :=
  filter
    (fun file => negb (existsb (fun pattern => minimatch (to_or_empty file) pattern) patterns))
    parsedDiff.

End PathFilter.

(** ** Collaborators, run state and the computation monad *)

(** What the program reads of a caught value.  [error_constructor_name] is
    [error.constructor.name], [None] when that read itself throws (the value
    is null or undefined, or has no constructor); [error_response] is
    [error.response] when it is truthy. *)
Record ErrorResponse := {
  (* JSON.stringify(error.response, null, 2): the text, or [None] when the
     value cannot be serialised (a circular structure, a BigInt) *)
  response_json : option string
}.

Record JsError := {
  error_constructor_name : option string;
  error_message : string;
  error_response : option ErrorResponse;
  error_stack : option string
}.

(** The error of the runtime, as for reading a property of [undefined]. *)
Definition TypeError (message : string) : JsError :=
  {| error_constructor_name := Some "TypeError";
     error_message := message;
     error_response := None;
     error_stack := Some "TypeError" |}.

(** How an evaluation ends: with a value, or with a thrown error (for an
    [async] function: a fulfilled or a rejected promise). *)
Inductive Completion (A : Type) : Type :=
| Normal (a : A)
| Throw (e : JsError).

Arguments Normal {A} a.
Arguments Throw {A} e.

(** The event payload at [GITHUB_EVENT_PATH], as far as the program reads it. *)
Record Repository := {
  repository_owner_login : string;
  repository_name : string
}.

Record EventData := {
  event_action : option string;
  event_before : string;
  event_after : string;
  (* [None] when [repository.owner.login] cannot be read: the payload has no
     repository, or its repository has no owner *)
  event_repository : option Repository;
  event_number : Z
}.

(** [prResponse.data] of [octokit.pulls.get]. *)
Record PullData := {
  pull_title : option string;
  pull_body : option string
}.

(** The parsed chat completion of the model client. *)
Record ReviewResponse := {
  reviews : list Finding
}.

Record ParsedMessage := {
  parsed : option ReviewResponse
}.

Record Choice := {
  message : option ParsedMessage
}.

Record ChatCompletion := {
  choices : list Choice
}.

(** The calls made to the hosting platform and to the model. *)
Inductive Call :=
| PullsGet (owner repo : string) (pull_number : Z)
| PullsGetDiff (owner repo : string) (pull_number : Z)
| CompareCommits (owner repo base head : string)
| ChatParse (prompt : string)
| CreateReview (owner repo : string) (pull_number : Z) (comments : list Comment) (event : string).

(** The collaborators over a world [W] they may change; each call can throw. *)
Record Collaborators (W : Type) := {
  (* JSON.parse(readFileSync(process.env.GITHUB_EVENT_PATH, "utf8")) *)
  readEvent : W -> Completion EventData;
  (* octokit.pulls.get({owner, repo, pull_number}) *)
  pulls_get : string -> string -> Z -> W -> Completion PullData * W;
  (* octokit.pulls.get({..., mediaType: {format: "diff"}}), its data *)
  pulls_get_diff : string -> string -> Z -> W -> Completion (option string) * W;
  (* String(octokit.repos.compareCommits({..., base, head}).data) *)
  repos_compareCommits : string -> string -> string -> string -> W -> Completion string * W;
  (* openai.beta.chat.completions.parse({..., messages, response_format}) *)
  chat_completions_parse : string -> W -> Completion ChatCompletion * W;
  (* octokit.pulls.createReview({owner, repo, pull_number, comments, event}) *)
  pulls_createReview : string -> string -> Z -> list Comment -> string -> W -> Completion unit * W;
  (* core.getInput("exclude") *)
  exclude_input : string;
  (* parseDiff(diff) *)
  parseDiff : string -> list File;
  (* minimatch(path, pattern) *)
  minimatch : string -> string -> bool
}.

Arguments readEvent {W} _ _.
Arguments pulls_get {W} _ _ _ _ _.
Arguments pulls_get_diff {W} _ _ _ _ _.
Arguments repos_compareCommits {W} _ _ _ _ _ _.
Arguments chat_completions_parse {W} _ _ _.
Arguments pulls_createReview {W} _ _ _ _ _ _ _.
Arguments exclude_input {W} _.
Arguments parseDiff {W} _ _.
Arguments minimatch {W} _ _ _.

(** The state of a run: the world and the calls made so far, oldest first. *)
Record Run (W : Type) := {
  world : W;
  calls : list Call
}.

Arguments world {W} _.
Arguments calls {W} _.

Definition M (W A : Type) : Type := Run W -> Completion A * Run W.

Definition ret {W A} (a : A) : M W A := fun r => (Normal a, r).

Definition throw {W A} (e : JsError) : M W A := fun r => (Throw e, r).

Definition bind {W A B} (m : M W A) (k : A -> M W B) : M W B :=
  fun r =>
    match m r with
    | (Normal a, r') => k a r'
    | (Throw e, r') => (Throw e, r')
    end.

(** [try { body } catch (error) { handler }] *)
Definition try_catch {W A} (body : M W A) (handler : JsError -> M W A) : M W A :=
  fun r =>
    match body r with
    | (Normal a, r') => (Normal a, r')
    | (Throw e, r') => handler e r'
    end.

(** A read of the world that leaves no call behind. *)
Definition observe {W A} (f : W -> Completion A) : M W A :=
  fun r => (f (world r), r).

(** A collaborator call: recorded, then carried out on the world. *)
Definition perform {W A} (c : Call) (op : W -> Completion A * W) : M W A :=
  fun r =>
    let (res, w) := op (world r) in
    (res, {| world := w; calls := calls r ++ [c] |}).

Declare Scope js_scope.
Delimit Scope js_scope with js.
Notation "x <- m ;; k" := (bind m (fun x => k))
  (at level 61, m at next level, right associativity) : js_scope.
Local Open Scope js_scope.

(** ** The program *)

Section Program.

Context {W : Type}.
Variable io : Collaborators W.

Definition getPRDetails : M W PRDetails :=
  event <- observe (readEvent io) ;;
  match event_repository event with
  | None => throw (TypeError "Cannot read properties of undefined (reading 'owner')")
  | Some repository =>
      let owner := repository_owner_login repository in
      let repo := repository_name repository in
      let number := event_number event in
      prResponse <- perform (PullsGet owner repo number) (pulls_get io owner repo number) ;;
      ret {| owner := owner;
             repo := repo;
             pull_number := number;
             title := match pull_title prResponse with Some t => t | None => "" end;
             description := match pull_body prResponse with Some b => b | None => "" end |}
  end.

Definition getDiff (owner repo : string) (pull_number : Z) : M W (option string) :=
  perform (PullsGetDiff owner repo pull_number) (pulls_get_diff io owner repo pull_number).

(** [response.choices[0].message?.parsed?.reviews || null]; an array, even
    an empty one, is truthy. *)
Definition reviews_or_null (m : option ParsedMessage) : option (list Finding) :=
  match m with
  | Some msg =>
      match parsed msg with
      | Some p => Some (reviews p)
      | None => None
      end
  | None => None
  end.

(** The [try] block of [getAIResponse]; the console output is left out. *)
Definition getAIResponse_try (prompt : string) : M W (option (list Finding)) :=
  response <- perform (ChatParse prompt) (chat_completions_parse io prompt) ;;
  match choices response with
  | [] => throw (TypeError "Cannot read properties of undefined (reading 'message')")
  | choice :: _ => ret (reviews_or_null (message choice))
  end.

(** The [catch] block of [getAIResponse]: it logs [error.constructor.name],
    [error.message], [JSON.stringify(error.response, null, 2)] when
    [error.response] is truthy and [error.stack] when truthy, and returns
    null.  The first and the third of these reads can throw. *)
Definition getAIResponse_catch (error : JsError) : M W (option (list Finding)) :=
  match error_constructor_name error with
  | None => throw (TypeError "Cannot read properties of undefined (reading 'name')")
  | Some _ =>
      match error_response error with
      | Some response =>
          match response_json response with
          | Some _ => ret None
          | None => throw (TypeError "Converting circular structure to JSON")
          end
      | None => ret None
      end
  end.

Definition getAIResponse (prompt : string) : M W (option (list Finding)) :=
  try_catch (getAIResponse_try prompt) getAIResponse_catch.

(** The loop over [file.chunks], [comments] being the accumulator. *)
Fixpoint analyzeChunks (file : File) (prDetails : PRDetails) (cs : list Chunk)
  (comments : list Comment) : M W (list Comment) :=
  match cs with
  | [] => ret comments
  | chunk :: rest =>
      let prompt := createPrompt file chunk prDetails in
      aiResponse <- getAIResponse prompt ;;
      match aiResponse with
      | Some aiResponse =>
          let newComments := createComment file chunk aiResponse in
          analyzeChunks file prDetails rest (comments ++ newComments)
      | None => analyzeChunks file prDetails rest comments
      end
  end.

(** [file.to === "/dev/null"] *)
Definition is_dev_null (file : File) : bool :=
  match to file with
  | Some p => String.eqb p "/dev/null"
  | None => false
  end.

(** The loop over [parsedDiff]. *)
Fixpoint analyzeFiles (prDetails : PRDetails) (files : list File)
  (comments : list Comment) : M W (list Comment) :=
  match files with
  | [] => ret comments
  | file :: rest =>
      if is_dev_null file then analyzeFiles prDetails rest comments
      else
        comments' <- analyzeChunks file prDetails (chunks file) comments ;;
        analyzeFiles prDetails rest comments'
  end.

Definition analyzeCode (parsedDiff : list File) (prDetails : PRDetails)
  : M W (list Comment) :=
  analyzeFiles prDetails parsedDiff [].

Definition createReviewComment (owner repo : string) (pull_number : Z)
  (comments : list Comment) : M W unit :=
  perform (CreateReview owner repo pull_number comments "COMMENT")
          (pulls_createReview io owner repo pull_number comments "COMMENT").

(** [main] from [if (comments.length > 0)] on. *)
Definition submitReview (prDetails : PRDetails) (comments : list Comment) : M W unit :=
  if (0 <? Z.of_nat (List.length comments)) then
    createReviewComment (owner prDetails) (repo prDetails) (pull_number prDetails) comments
  else ret tt.

(** [main] from [if (!diff)] on. *)
Definition reviewDiff (prDetails : PRDetails) (diff : option string) : M W unit :=
  match diff with
  | None => ret tt
  | Some diff =>
      if JsString.truthy diff then
        let parsedDiff := parseDiff io diff in
        let patterns := excludePatterns (exclude_input io) in
        let filtered := filteredDiff (minimatch io) patterns parsedDiff in
        comments <- analyzeCode filtered prDetails ;;
        submitReview prDetails comments
      else ret tt
  end.

Definition action_is (eventData : EventData) (name : string) : bool :=
  match event_action eventData with
  | Some a => String.eqb a name
  | None => false
  end.

(** The [try] block of [main]. *)
Definition main_try : M W unit :=
  prDetails <- getPRDetails ;;
  eventData <- observe (readEvent io) ;;
  if action_is eventData "opened" then
    diff <- getDiff (owner prDetails) (repo prDetails) (pull_number prDetails) ;;
    reviewDiff prDetails diff
  else if action_is eventData "synchronize" then
    let newBaseSha := event_before eventData in
    let newHeadSha := event_after eventData in
    diff <- perform (CompareCommits (owner prDetails) (repo prDetails) newBaseSha newHeadSha)
              (repos_compareCommits io (owner prDetails) (repo prDetails) newBaseSha newHeadSha) ;;
    reviewDiff prDetails (Some diff)
  else ret tt.

(** The [catch] block of [main]: it logs [error.constructor.name],
    [error.message] and [error.stack], then [process.exit(1)]. *)
Definition main_catch (error : JsError) : M W Z :=
  match error_constructor_name error with
  | None => throw (TypeError "Cannot read properties of undefined (reading 'name')")
  | Some _ => ret 1%Z
  end.

(** The process: exit code 0 when [main] completes, 1 from its [catch]
    block, and 1 from [main().catch(...)] when that block throws. *)
Definition main (r : Run W) : Z * Run W :=
  match try_catch (bind main_try (fun _ => ret 0%Z)) main_catch r with
  | (Normal code, r') => (code, r')
  | (Throw _, r') => (1, r')
  end.

End Program.

(** ** Decimal digit strings, read in base 10 *)

Definition is_decimal_digit (c : ascii) : bool :=
  (48 <=? JsString.code c) && (JsString.code c <=? 57).

Fixpoint all_decimal_digits (s : string) : bool :=
  match s with
  | EmptyString => true
  | String c r => is_decimal_digit c && all_decimal_digits r
  end.

Fixpoint decimal_value_from (acc : Z) (s : string) : Z :=
  match s with
  | EmptyString => acc
  | String c r => decimal_value_from (acc * 10 + (JsString.code c - 48)) r
  end.

(** The natural number that a string of decimal digits writes. *)
Definition decimal_value (s : string) : Z := decimal_value_from 0 s.

(** The characters a numeric literal can begin with (after trimming). *)
Definition may_start_literal (c : ascii) : bool :=
  is_decimal_digit c || Ascii.eqb c "+" || Ascii.eqb c "-" || Ascii.eqb c "."
  || Ascii.eqb c "I".

(** The line number the specification asks for: the one in the new file
    when the change has it, else the one in the old file. *)
Definition preferred_line (c : Change) : option Z :=
  match newLineNumber c with
  | Some n => Some n
  | None => oldLineNumber c
  end.

(** ** Work items and answers *)

(** The (file, chunk) pairs that the loops of [analyzeCode] reach, in
    order: every chunk of every file whose target is not "/dev/null". *)
Definition workItems (parsedDiff : list File) : list (File * Chunk) :=
  flat_map
    (fun file => if is_dev_null file then [] else map (pair file) (chunks file))
    parsedDiff.

(** What one answer of the model adds to the comments. *)
Definition contribution (item : File * Chunk) (answer : option (list Finding))
  : list Comment :=
  match answer with
  | Some aiResponse => createComment (fst item) (snd item) aiResponse
  | None => []
  end.

Fixpoint contributions (items : list (File * Chunk))
  (answers : list (option (list Finding))) : list Comment :=
  match items, answers with
  | item :: items', answer :: answers' =>
      contribution item answer ++ contributions items' answers'
  | _, _ => []
  end.

Definition prompt_call (prDetails : PRDetails) (item : File * Chunk) : Call :=
  ChatParse (createPrompt (fst item) (snd item) prDetails).

Section Answers.

Context {W : Type}.
Variable io : Collaborators W.
Variable prDetails : PRDetails.

(** [Answers r items answers r']: from run state [r], asking the model
    about [items] one after the other gives [answers] and leaves [r']. *)
Inductive Answers : Run W -> list (File * Chunk) -> list (option (list Finding))
                    -> Run W -> Prop :=
| Answers_done : forall r, Answers r [] [] r
| Answers_step : forall r file chunk answer r1 items answers r2,
    getAIResponse io (createPrompt file chunk prDetails) r = (Normal answer, r1) ->
    Answers r1 items answers r2 ->
    Answers r ((file, chunk) :: items) (answer :: answers) r2.

(** The two loops of [analyzeCode] as one loop over the work items. *)
Fixpoint analyzeItems (items : list (File * Chunk)) (comments : list Comment)
  : M W (list Comment) :=
  match items with
  | [] => ret comments
  | item :: rest =>
      bind (getAIResponse io (createPrompt (fst item) (snd item) prDetails))
           (fun aiResponse => analyzeItems rest (comments ++ contribution item aiResponse)%list)
  end.

End Answers.

(** ** Sample data *)

(** A glob matcher for the samples: [*] and [?] within one path segment,
    other characters literally. *)
Fixpoint glob_from (fuel : nat) (pattern path : string) : bool :=
  match fuel with
  | O => false
  | S fuel' =>
      match pattern, path with
      | EmptyString, EmptyString => true
      | EmptyString, String _ _ => false
      | String "*" pattern', EmptyString => glob_from fuel' pattern' path
      | String "*" pattern', String c path' =>
          glob_from fuel' pattern' path
          || (negb (Ascii.eqb c "/") && glob_from fuel' pattern path')
      | String _ _, EmptyString => false
      | String p pattern', String c path' =>
          ((Ascii.eqb p "?" && negb (Ascii.eqb c "/")) || Ascii.eqb p c)
          && glob_from fuel' pattern' path'
      end
  end.

Definition glob (path pattern : string) : bool :=
  glob_from (String.length pattern + String.length path + 1) pattern path.


Module Sample.

Definition hunk : Chunk :=
  {| content := "@@ -1,2 +1,3 @@";
     changes := [NormalChange 1 1 " const a = 1;";
                 AddChange 2 "+let b = 2;";
                 DeleteChange 2 "-var b;"];
     oldStart := 1; oldLines := 2; newStart := 1; newLines := 3 |}.

Definition file_at (target : option string) : File :=
  {| chunks := [hunk]; deletions := 1; additions := 1;
     from := Some "a.ts"; to := target |}.

Definition a_ts : File := file_at (Some "a.ts").
Definition readme : File := file_at (Some "README.md").
Definition deleted : File := file_at (Some "/dev/null").
Definition pathless : File := file_at None.

Definition pr : PRDetails :=
  {| owner := "kvush"; repo := "ai-code-reviewer"; pull_number := 7;
     title := "Add b"; description := "Introduces b." |}.

Definition finding (n : string) : Finding :=
  {| lineNumber := n; reviewComment := "avoid mutable state" |}.

(** A model that fails on its first call and then always reports line 2;
    the world counts the calls. *)
Definition one_finding : ChatCompletion :=
  {| choices := [ {| message := Some {| parsed := Some {| reviews := [finding "2"] |} |} |} ] |}.

Definition no_finding : ChatCompletion :=
  {| choices := [ {| message := Some {| parsed := Some {| reviews := [] |} |} |} ] |}.

Definition timeout : JsError :=
  {| error_constructor_name := Some "APIConnectionTimeoutError";
     error_message := "Request timed out.";
     error_response := None;
     error_stack := Some "APIConnectionTimeoutError: Request timed out." |}.

Definition event (action : string) : EventData :=
  {| event_action := Some action;
     event_before := "1111111"; event_after := "2222222";
     event_repository :=
       Some {| repository_owner_login := "kvush"; repository_name := "ai-code-reviewer" |};
     event_number := 7 |}.

Definition collaborators (action : string) (first_answer : Completion ChatCompletion)
  : Collaborators nat :=
  {| readEvent := fun _ => Normal (event action);
     pulls_get := fun _ _ _ n =>
       (Normal {| pull_title := Some "Add b"; pull_body := Some "Introduces b." |}, n);
     pulls_get_diff := fun _ _ _ n => (Normal (Some "diff --git a/a.ts b/a.ts"), n);
     repos_compareCommits := fun _ _ _ _ n => (Normal "diff --git a/a.ts b/a.ts", n);
     chat_completions_parse := fun _ n =>
       (match n with O => first_answer | S _ => Normal one_finding end, S n);
     pulls_createReview := fun _ _ _ _ _ n => (Normal tt, n);
     exclude_input := "*.md";
     parseDiff := fun _ => [a_ts];
     minimatch := glob |}.

Definition start : Run nat := {| world := O; calls := [] |}.

End Sample.

(** ** Further vocabulary and scenarios *)

(** Occurrences of a code unit in a string. *)
Fixpoint count_char (c : ascii) (s : string) : nat :=
  match s with
  | EmptyString => O
  | String c' r => (if Ascii.eqb c' c then 1 else 0) + count_char c r
  end.

(** A string that does not begin with white space. *)
Definition starts_clean (s : string) : Prop :=
  match s with
  | EmptyString => True
  | String c _ => JsString.is_white_space c = false
  end.

(** Whether the [catch] block of [getAIResponse] can log the caught value:
    its constructor name can be read and its response, if it has one, can be
    serialised. *)
Definition can_log (error : JsError) : bool :=
  match error_constructor_name error with
  | None => false
  | Some _ =>
      match error_response error with
      | Some response =>
          match response_json response with
          | Some _ => true
          | None => false
          end
      | None => true
      end
  end.

(** The exit code for a completion of [main]'s body. *)
Definition exit_code {A : Type} (c : Completion A) : Z :=
  match c with
  | Normal _ => 0%Z
  | Throw _ => 1%Z
  end.

Definition is_metadata_fetch (c : Call) : bool :=
  match c with
  | PullsGet _ _ _ => true
  | _ => false
  end.

Definition is_review_creation (c : Call) : bool :=
  match c with
  | CreateReview _ _ _ _ _ => true
  | _ => false
  end.

Module Scenario.

Definition forbidden : JsError :=
  {| error_constructor_name := Some "HttpError";
     error_message := "Bad credentials";
     error_response := Some {| response_json := Some "{}" |};
     error_stack := None |}.

(** An error that carries the HTTP response it came from, a structure that
    refers to itself and that JSON.stringify refuses. *)
Definition with_circular_response : JsError :=
  {| error_constructor_name := Some "Error";
     error_message := "Request failed with status code 429";
     error_response := Some {| response_json := None |};
     error_stack := None |}.

(** A platform whose review creation is seen in the world: each review
    created adds 100 to it. *)
Definition posting (action : string) (review : Completion unit) : Collaborators nat :=
  {| readEvent := fun _ => Normal (Sample.event action);
     pulls_get := fun _ _ _ n =>
       (Normal {| pull_title := Some "Add b"; pull_body := None |}, n);
     pulls_get_diff := fun _ _ _ n => (Normal (Some "diff --git"), (n + 10)%nat);
     repos_compareCommits := fun _ _ _ _ n => (Normal "diff --git", (n + 20)%nat);
     chat_completions_parse := fun _ n => (Normal Sample.one_finding, S n);
     pulls_createReview := fun _ _ _ _ _ n => (review, (n + 100)%nat);
     exclude_input := "";
     parseDiff := fun _ => [Sample.a_ts];
     minimatch := glob |}.

(** Collaborators whose platform answers are given; the model always
    throws a timeout on its first call. *)
Definition platform (action : string) (details : Completion PullData)
  (diff : Completion (option string)) (review : Completion unit)
  (files : list File) (exclude : string) : Collaborators nat :=
  {| readEvent := fun _ => Normal (Sample.event action);
     pulls_get := fun _ _ _ n => (details, n);
     pulls_get_diff := fun _ _ _ n => (diff, n);
     repos_compareCommits := fun _ _ _ _ n =>
       (match diff with
        | Normal (Some d) => Normal d
        | Normal None => Normal EmptyString
        | Throw e => Throw e
        end, n);
     chat_completions_parse := fun _ n =>
       (match n with O => Throw Sample.timeout | S _ => Normal Sample.one_finding end, S n);
     pulls_createReview := fun _ _ _ _ _ n => (review, n);
     exclude_input := exclude;
     parseDiff := fun _ => files;
     minimatch := glob |}.

Definition details : Completion PullData :=
  Normal {| pull_title := Some "Add b"; pull_body := None |}.

Definition pr : PRDetails :=
  {| owner := "kvush"; repo := "ai-code-reviewer"; pull_number := 7;
     title := "Add b"; description := "" |}.

Definition two_hunks : File :=
  {| chunks := [Sample.hunk; Sample.hunk]; deletions := 2; additions := 2;
     from := Some "b.ts"; to := Some "b.ts" |}.

End Scenario.

(** * Properties *)

(** ** Numbers *)

Module JsNumberFacts.
Import JsNumber.

Lemma digits2_pos_size p : digits2_pos p = Pos.size p.
Proof. induction p; simpl; congruence. Qed.

Lemma iter_xO_value k p : Zpos (Pos.iter xO p k) = Zpos p * 2 ^ Zpos k.
Proof.
  induction k using Pos.peano_ind.
  - simpl. lia.
  - rewrite Pos.iter_succ, Pos2Z.inj_succ, Z.pow_succ_r by lia.
    rewrite Pos2Z.inj_xO, IHk. lia.
Qed.

Lemma iter_xO_digits k p :
  digits2_pos (Pos.iter xO p k) = (digits2_pos p + k)%positive.
Proof.
  induction k using Pos.peano_ind.
  - simpl. lia.
  - rewrite Pos.iter_succ. simpl. rewrite IHk. lia.
Qed.

Lemma digits2_bound p : Zpos p < 2 ^ 53 -> Zpos (digits2_pos p) <= 53.
Proof.
  intros H. rewrite digits2_pos_size.
  destruct (Z_le_gt_dec (Zpos (Pos.size p)) 53) as [|Hgt]; [assumption|exfalso].
  pose proof (Pos.size_le p) as Hle.
  assert (Hpow : 2 ^ 54 <= 2 ^ Zpos (Pos.size p)) by (apply Z.pow_le_mono_r; lia).
  assert (Hz : 2 ^ Zpos (Pos.size p) <= 2 * Zpos p).
  { change (2 * Zpos p) with (Zpos (p~0)).
    rewrite <- Pos2Z.inj_pow. apply Pos2Z.pos_le_pos. exact Hle. }
  change (2 ^ 54) with (2 * 2 ^ 53) in Hpow. lia.
Qed.

Lemma shr_fexp_full m e :
  Zpos (digits2_pos m) = 53 -> -1074 <= e ->
  shr_fexp prec emax (Zpos m) e loc_Exact
  = ({| shr_m := Zpos m; shr_r := false; shr_s := false |}, e).
Proof.
  intros Hm He. unfold shr_fexp. cbn [Zdigits2 shr_record_of_loc].
  rewrite Hm.
  replace (fexp prec emax (53 + e) - e) with 0
    by (unfold fexp, emin, prec, emax; lia).
  reflexivity.
Qed.

Lemma binary_round_aux_full s m e :
  Zpos (digits2_pos m) = 53 -> -1074 <= e <= 971 ->
  binary_round_aux prec emax s (Zpos m) e loc_Exact = S754_finite s m e.
Proof.
  intros Hm He. unfold binary_round_aux.
  rewrite shr_fexp_full by lia.
  cbn [shr_m loc_of_shr_record round_nearest_even].
  rewrite shr_fexp_full by lia.
  cbn [shr_m].
  replace (e <=? emax - prec) with true; [reflexivity|].
  symmetry. apply Z.leb_le. unfold emax, prec. lia.
Qed.

(** Integers below 2^53 are numbers: conversion is exact. *)
Lemma of_Z_pos_exact p :
  Zpos p < 2 ^ 53 ->
  exists m e, of_Z (Zpos p) = S754_finite false m e
              /\ e <= 0 /\ Zpos m = Zpos p * 2 ^ (- e).
Proof.
  intros Hp. pose proof (digits2_bound p Hp) as Hd.
  unfold of_Z, binary_normalize, binary_round.
  replace (fexp prec emax (Zpos (digits2_pos p) + 0)) with (Zpos (digits2_pos p) - 53)
    by (unfold fexp, emin, prec, emax; lia).
  unfold shl_align.
  destruct (Zpos (digits2_pos p) - 53 - 0) as [|k|k] eqn:Hk; try lia.
  - exists p, 0. split; [|split; [lia|simpl; lia]].
    apply binary_round_aux_full; lia.
  - exists (Pos.iter xO p k), (Zpos (digits2_pos p) - 53).
    split; [|split; [lia|]].
    + apply binary_round_aux_full; [|lia].
      rewrite iter_xO_digits. lia.
    + rewrite iter_xO_value. f_equal. f_equal. lia.
Qed.

Lemma to_Z_of_Z n : 0 <= n < 2 ^ 53 -> to_Z (of_Z n) = Some n.
Proof.
  intros [Hn0 Hn]. destruct n as [|p|p]; [reflexivity| |lia].
  destruct (of_Z_pos_exact p Hn) as (m & e & -> & He & Hm).
  unfold to_Z. destruct (0 <=? e) eqn:H0e.
  - apply Z.leb_le in H0e. assert (e = 0) by lia. subst e.
    simpl in *. f_equal. lia.
  - rewrite Hm, Z.mod_mul, Z.eqb_refl by (apply Z.pow_nonzero; lia).
    rewrite Z.div_mul by (apply Z.pow_nonzero; lia). reflexivity.
Qed.

(** *** Strings of decimal digits *)

Ltac by_cases_on_char c H :=
  destruct c as [[] [] [] [] [] [] [] []]; vm_compute in H; try discriminate H.

Lemma digit_not_white_space c :
  is_decimal_digit c = true -> JsString.is_white_space c = false.
Proof. intros H. by_cases_on_char c H; reflexivity. Qed.

Lemma digit_of_decimal c :
  is_decimal_digit c = true -> digit_of 10 c = Some (JsString.code c - 48).
Proof. intros H. by_cases_on_char c H; reflexivity. Qed.

Lemma trimEnd_digits s : all_decimal_digits s = true -> JsString.trimEnd s = s.
Proof.
  induction s as [|c r IH]; [reflexivity|].
  cbn [all_decimal_digits]. intros H. apply andb_prop in H as [Hc Hr].
  cbn [JsString.trimEnd]. rewrite (IH Hr), (digit_not_white_space c Hc).
  destruct r; reflexivity.
Qed.

Lemma trim_digits s : all_decimal_digits s = true -> JsString.trim s = s.
Proof.
  intros H. unfold JsString.trim.
  replace (JsString.trimStart s) with s; [apply trimEnd_digits, H|].
  destruct s as [|c r]; [reflexivity|].
  cbn [all_decimal_digits] in H. apply andb_prop in H as [Hc _].
  cbn [JsString.trimStart]. now rewrite (digit_not_white_space c Hc).
Qed.

Lemma take_digits_all s :
  all_decimal_digits s = true ->
  exists ds,
    take_digits 10 s = (ds, EmptyString)
    /\ List.length ds = String.length s
    /\ forall acc, fold_left (fun a d => a * 10 + d) ds acc = decimal_value_from acc s.
Proof.
  induction s as [|c r IH]; cbn [all_decimal_digits]; intros H.
  - exists []. repeat split.
  - apply andb_prop in H as [Hc Hr]. destruct (IH Hr) as (ds & Htake & Hlen & Hval).
    exists ((JsString.code c - 48) :: ds).
    cbn [take_digits]. rewrite (digit_of_decimal c Hc), Htake.
    repeat split.
    + cbn [List.length String.length]. now rewrite Hlen.
    + intros acc. cbn [fold_left decimal_value_from]. apply Hval.
Qed.

Lemma non_decimal_digits s : all_decimal_digits s = true -> non_decimal s = None.
Proof.
  destruct s as [|c [|c' r]]; try reflexivity.
  - intros _. destruct c as [[] [] [] [] [] [] [] []]; reflexivity.
  - cbn [all_decimal_digits]. intros H.
    apply andb_prop in H as [Hc H]. apply andb_prop in H as [Hc' _].
    by_cases_on_char c Hc; try reflexivity.
    by_cases_on_char c' Hc'; reflexivity.
Qed.

Lemma take_sign_digits s :
  all_decimal_digits s = true -> take_sign s = (false, s).
Proof.
  destruct s as [|c r]; [reflexivity|]. cbn [all_decimal_digits]. intros H.
  apply andb_prop in H as [Hc _]. by_cases_on_char c Hc; reflexivity.
Qed.

Lemma not_Infinity_digits s :
  all_decimal_digits s = true -> String.eqb s "Infinity" = false.
Proof.
  destruct s as [|c r]; [reflexivity|]. cbn [all_decimal_digits]. intros H.
  apply andb_prop in H as [Hc _]. by_cases_on_char c Hc; reflexivity.
Qed.

Lemma unsigned_decimal_digits s :
  all_decimal_digits s = true -> s <> EmptyString ->
  unsigned_decimal s = Some (MV_decimal (decimal_value s) 0).
Proof.
  intros H Hne. unfold unsigned_decimal.
  rewrite (not_Infinity_digits s H).
  destruct (take_digits_all s H) as (ds & -> & Hlen & Hval).
  assert (Hnz : Nat.eqb (List.length ds) 0 = false).
  { rewrite Hlen. destruct s; [congruence|reflexivity]. }
  rewrite Hnz. cbn [negb exponent_part List.length].
  rewrite app_nil_r. unfold digits_value. rewrite Hval. reflexivity.
Qed.

Lemma decimal_value_from_bounds s : forall acc,
  all_decimal_digits s = true -> 0 <= acc ->
  0 <= decimal_value_from acc s < (acc + 1) * 10 ^ Z.of_nat (String.length s).
Proof.
  induction s as [|c r IH]; intros acc H Hacc.
  - cbn. lia.
  - cbn [all_decimal_digits] in H. apply andb_prop in H as [Hc Hr].
    assert (Hd : 0 <= JsString.code c - 48 <= 9).
    { unfold is_decimal_digit in Hc. apply andb_prop in Hc as [H1 H2].
      apply Z.leb_le in H1, H2. lia. }
    cbn [decimal_value_from String.length].
    specialize (IH (acc * 10 + (JsString.code c - 48)) Hr ltac:(lia)).
    rewrite Nat2Z.inj_succ, Z.pow_succ_r by lia.
    assert (0 < 10 ^ Z.of_nat (String.length r)) by (apply Z.pow_pos_nonneg; lia).
    nia.
Qed.

(** [Number] of a string of decimal digits is the number nearest to what
    the digits write in base 10. *)
Lemma Number_digits s :
  all_decimal_digits s = true -> s <> EmptyString ->
  Number s = of_Z (decimal_value s).
Proof.
  intros H Hne. unfold Number. rewrite (trim_digits s H).
  unfold of_trimmed. destruct s as [|c r] eqn:Hs; [congruence|]. rewrite <- Hs in *.
  rewrite (non_decimal_digits s H), (take_sign_digits s H).
  rewrite (unsigned_decimal_digits s H) by (subst s; discriminate).
  unfold round_decimal, of_Z.
  destruct (decimal_value s) as [|p|p] eqn:Hv; try reflexivity.
  - cbn [Z.leb Z.compare cond_Zopp]. now rewrite Z.pow_0_r, Z.mul_1_r.
  - pose proof (decimal_value_from_bounds s 0 H ltac:(lia)) as Hb.
    unfold decimal_value in Hv. lia.
Qed.

(** Up to fifteen digits, the conversion is exact. *)
Lemma Number_digits_exact s :
  all_decimal_digits s = true -> s <> EmptyString -> (String.length s <= 15)%nat ->
  to_Z (Number s) = Some (decimal_value s) /\ 0 <= decimal_value s.
Proof.
  intros H Hne Hlen.
  pose proof (decimal_value_from_bounds s 0 H ltac:(lia)) as Hb.
  fold (decimal_value s) in Hb.
  assert (Hpow : 10 ^ Z.of_nat (String.length s) <= 10 ^ 15)
    by (apply Z.pow_le_mono_r; lia).
  split; [|lia].
  rewrite (Number_digits s H Hne). apply to_Z_of_Z.
  assert (10 ^ 15 < 2 ^ 53) by reflexivity. lia.
Qed.

(** The conversion on a few strings, against the values a JavaScript engine
    gives. *)
Example Number_samples :
  Number "42" = of_Z 42
  /\ Number " 7 " = of_Z 7
  /\ Number "" = S754_zero false
  /\ Number "1e3" = of_Z 1000
  /\ Number "0x1A" = of_Z 26
  /\ Number "12abc" = NaN
  /\ Number "-0" = S754_zero true
  /\ Number "-Infinity" = Infinity true
  /\ Number "1e309" = Infinity false
  /\ Number "0.1" = S754_finite false 7205759403792794 (-56)
  /\ Number "4.35" = S754_finite false 4897664594765414 (-50)
  /\ Number "1e23" = S754_finite false 5960464477539062 24
  /\ Number "9007199254740993" = S754_finite false 4503599627370496 1
  /\ Number "5e-324" = S754_finite false 1 (-1074)
  /\ Number "1.7976931348623157e308" = S754_finite false 9007199254740991 971.
Proof. repeat split; vm_compute; reflexivity. Qed.

(** Text that does not begin like a numeric literal converts to NaN. *)
Lemma Number_not_numeric s c r :
  JsString.trim s = String c r -> may_start_literal c = false -> Number s = NaN.
Proof.
  intros Ht Hc. unfold Number. rewrite Ht.
  by_cases_on_char c Hc; reflexivity.
Qed.

End JsNumberFacts.

(** ** createComment *)

Lemma createComment_with_path file chunk aiResponses file_to :
  to file = Some file_to -> file_to <> EmptyString ->
  createComment file chunk aiResponses
  = map (fun finding => {| body := reviewComment finding;
                           path := file_to;
                           line := JsNumber.Number (lineNumber finding) |})
        aiResponses.
Proof.
  intros Hto Hne. unfold createComment. rewrite Hto.
  destruct file_to as [|c r]; [congruence|]. cbn [JsString.truthy].
  induction aiResponses as [|a rest IH]; [reflexivity|].
  cbn [flat_map map app]. now rewrite IH.
Qed.

Lemma createComment_without_path file chunk aiResponses :
  to file = None \/ to file = Some EmptyString ->
  createComment file chunk aiResponses = [].
Proof.
  intros H. unfold createComment.
  induction aiResponses as [|a rest IH]; [reflexivity|].
  cbn [flat_map]. rewrite IH. destruct H as [-> | ->]; reflexivity.
Qed.

Lemma createComment_path file chunk aiResponses record :
  In record (createComment file chunk aiResponses) ->
  to file = Some (path record) /\ path record <> EmptyString.
Proof.
  destruct (to file) as [[|c r]|] eqn:Hto.
  - rewrite createComment_without_path by auto. intros [].
  - rewrite (createComment_with_path _ _ _ _ Hto) by discriminate.
    intros Hin. apply in_map_iff in Hin as (a & <- & _). cbn. split; [reflexivity|discriminate].
  - rewrite createComment_without_path by auto. intros [].
Qed.

(** C1 as stated fails: the line of an emitted record need not be a
    non-negative integer.  For the findings "-5" and "1.5" on file a.ts the
    records carry the numbers -5 and 1.5 (and "0x1A" would be read in base
    16, as 26). *)
Lemma createComment_line_not_always_natural :
  createComment Sample.a_ts Sample.hunk [Sample.finding "-5"; Sample.finding "1.5"]
  = [ {| body := "avoid mutable state"; path := "a.ts";
         line := S754_finite true 5629499534213120 (-50) |};
      {| body := "avoid mutable state"; path := "a.ts";
         line := S754_finite false 6755399441055744 (-52) |} ]
  /\ JsNumber.to_Z (S754_finite true 5629499534213120 (-50)) = Some (-5)
  /\ JsNumber.is_negative (S754_finite true 5629499534213120 (-50)) = true
  /\ JsNumber.is_non_negative_integer (S754_finite true 5629499534213120 (-50)) = false
  /\ JsNumber.to_Z (S754_finite false 6755399441055744 (-52)) = None
  /\ JsNumber.is_non_negative_integer (S754_finite false 6755399441055744 (-52)) = false
  /\ map line (createComment Sample.a_ts Sample.hunk [Sample.finding "0x1A"])
     = [JsNumber.of_Z 26]
  /\ ~ (forall file chunk aiResponses record,
          In record (createComment file chunk aiResponses) ->
          JsNumber.is_non_negative_integer (line record) = true).
Proof.
  do 7 (split; [vm_compute; reflexivity|]).
  intros H.
  specialize (H Sample.a_ts Sample.hunk [Sample.finding "-5"]
                {| body := "avoid mutable state"; path := "a.ts";
                   line := S754_finite true 5629499534213120 (-50) |}).
  assert (Hin : In {| body := "avoid mutable state"; path := "a.ts";
                      line := S754_finite true 5629499534213120 (-50) |}
                   (createComment Sample.a_ts Sample.hunk [Sample.finding "-5"]))
    by (vm_compute; left; reflexivity).
  specialize (H Hin). vm_compute in H. discriminate H.
Qed.

(** C1, amended: the line of every emitted record is [Number(lineNumber)]
    of the finding it comes from; when the lineNumber is one to fifteen
    decimal digits this is the non-negative integer they write in base 10;
    and for a file with a non-empty target path every finding gets its
    record, whatever the conversion gives (NaN included). *)
Theorem createComment_line_is_Number :
  forall file chunk aiResponses,
    (forall record,
        In record (createComment file chunk aiResponses) ->
        exists finding,
          In finding aiResponses
          /\ line record = JsNumber.Number (lineNumber finding)
          /\ (all_decimal_digits (lineNumber finding) = true ->
              lineNumber finding <> EmptyString ->
              (String.length (lineNumber finding) <= 15)%nat ->
              JsNumber.to_Z (line record) = Some (decimal_value (lineNumber finding))
              /\ JsNumber.is_non_negative_integer (line record) = true))
    /\ (forall file_to finding,
           to file = Some file_to -> file_to <> EmptyString ->
           In finding aiResponses ->
           exists record,
             In record (createComment file chunk aiResponses)
             /\ body record = reviewComment finding
             /\ line record = JsNumber.Number (lineNumber finding)).
Proof.
  intros file chunk aiResponses. split.
  - intros record Hin.
    destruct (createComment_path _ _ _ _ Hin) as [Hto Hne].
    rewrite (createComment_with_path _ _ _ _ Hto Hne) in Hin.
    apply in_map_iff in Hin as (finding & <- & Hf).
    exists finding. cbn [line]. repeat split; try assumption.
    + now apply JsNumberFacts.Number_digits_exact.
    + unfold JsNumber.is_non_negative_integer.
      destruct (JsNumberFacts.Number_digits_exact (lineNumber finding)) as [-> Hpos];
        try assumption.
      now apply Z.leb_le.
  - intros file_to finding Hto Hne Hf.
    rewrite (createComment_with_path _ _ _ _ Hto Hne).
    eexists. split; [apply in_map; exact Hf|]. split; reflexivity.
Qed.

Lemma createComment_line_is_Number_witness :
  (exists finding,
      In finding [Sample.finding "12"; Sample.finding "oops"]
      /\ JsNumber.of_Z 12 = JsNumber.Number (lineNumber finding)
      /\ (all_decimal_digits (lineNumber finding) = true ->
          lineNumber finding <> EmptyString ->
          (String.length (lineNumber finding) <= 15)%nat ->
          JsNumber.to_Z (JsNumber.of_Z 12) = Some (decimal_value (lineNumber finding))
          /\ JsNumber.is_non_negative_integer (JsNumber.of_Z 12) = true))
  /\ (exists record,
         In record (createComment Sample.a_ts Sample.hunk
                      [Sample.finding "12"; Sample.finding "oops"])
         /\ body record = "avoid mutable state"
         /\ line record = JsNumber.NaN).
Proof.
  split.
  - apply (proj1 (createComment_line_is_Number Sample.a_ts Sample.hunk
                    [Sample.finding "12"; Sample.finding "oops"])
             {| body := "avoid mutable state"; path := "a.ts"; line := JsNumber.of_Z 12 |}).
    vm_compute. left. reflexivity.
  - apply (proj2 (createComment_line_is_Number Sample.a_ts Sample.hunk
                    [Sample.finding "12"; Sample.finding "oops"])
             "a.ts" (Sample.finding "oops")).
    + reflexivity.
    + discriminate.
    + right. left. reflexivity.
Defined.

(** C2 as stated fails: for the deletion sentinel "/dev/null" as target
    path, createComment emits a record. *)
Lemma createComment_dev_null_not_empty :
  createComment Sample.deleted Sample.hunk [Sample.finding "2"]
  = [ {| body := "avoid mutable state"; path := "/dev/null"; line := JsNumber.of_Z 2 |} ]
  /\ createComment Sample.deleted Sample.hunk [Sample.finding "2"] <> [].
Proof. split; [vm_compute; reflexivity | vm_compute; discriminate]. Qed.

(** C2, amended: when the file's target path is absent or the empty string,
    createComment produces the empty sequence, whatever the findings; and
    only then, if there is a finding at all. *)
Theorem createComment_empty_iff_no_path :
  forall file chunk aiResponses,
    ((to file = None \/ to file = Some EmptyString) ->
     createComment file chunk aiResponses = [])
    /\ (aiResponses <> [] ->
        createComment file chunk aiResponses = [] ->
        to file = None \/ to file = Some EmptyString).
Proof.
  intros file chunk aiResponses. split.
  - apply createComment_without_path.
  - intros Hne Hempty. destruct (to file) as [[|c r]|] eqn:Hto; auto.
    rewrite (createComment_with_path _ _ _ _ Hto) in Hempty by discriminate.
    destruct aiResponses; [congruence|discriminate].
Qed.

Lemma createComment_empty_iff_no_path_witness :
  createComment Sample.pathless Sample.hunk [Sample.finding "2"] = [].
Proof.
  apply (proj1 (createComment_empty_iff_no_path Sample.pathless Sample.hunk
                  [Sample.finding "2"])).
  left. reflexivity.
Defined.

(** C10: for a file with a non-empty target path, createComment gives
    exactly one record per finding, in order, the body being the finding's
    reviewComment and the path the target path; the lineNumber never drops a
    finding: an empty lineNumber gives line 0 and text that does not begin
    like a number gives line NaN, in a record that is emitted all the same. *)
Theorem createComment_one_record_per_finding :
  forall file chunk aiResponses file_to,
    to file = Some file_to -> file_to <> EmptyString ->
    createComment file chunk aiResponses
    = map (fun finding => {| body := reviewComment finding;
                             path := file_to;
                             line := JsNumber.Number (lineNumber finding) |})
          aiResponses
    /\ List.length (createComment file chunk aiResponses) = List.length aiResponses
    /\ map body (createComment file chunk aiResponses) = map reviewComment aiResponses
    /\ (forall finding,
           In finding aiResponses -> lineNumber finding = EmptyString ->
           In {| body := reviewComment finding; path := file_to;
                 line := S754_zero false |}
              (createComment file chunk aiResponses))
    /\ (forall finding c r,
           In finding aiResponses ->
           JsString.trim (lineNumber finding) = String c r ->
           may_start_literal c = false ->
           In {| body := reviewComment finding; path := file_to;
                 line := JsNumber.NaN |}
              (createComment file chunk aiResponses)).
Proof.
  intros file chunk aiResponses file_to Hto Hne.
  rewrite (createComment_with_path _ _ _ _ Hto Hne).
  split; [reflexivity|]. split; [apply length_map|]. split.
  { rewrite map_map. reflexivity. }
  split.
  - intros finding Hin Hempty. apply in_map_iff. exists finding.
    split; [|assumption]. now rewrite Hempty.
  - intros finding c r Hin Htrim Hc. apply in_map_iff. exists finding.
    split; [|assumption].
    now rewrite (JsNumberFacts.Number_not_numeric _ _ _ Htrim Hc).
Qed.

Lemma createComment_one_record_per_finding_witness :
  createComment Sample.a_ts Sample.hunk
    [Sample.finding "2"; Sample.finding ""; Sample.finding "line 3"]
  = [ {| body := "avoid mutable state"; path := "a.ts"; line := JsNumber.of_Z 2 |};
      {| body := "avoid mutable state"; path := "a.ts"; line := S754_zero false |};
      {| body := "avoid mutable state"; path := "a.ts"; line := JsNumber.NaN |} ].
Proof.
  apply (proj1 (createComment_one_record_per_finding Sample.a_ts Sample.hunk
                  [Sample.finding "2"; Sample.finding ""; Sample.finding "line 3"]
                  "a.ts" eq_refl ltac:(discriminate))).
Defined.

(** ** createPrompt *)

Lemma resolved_line_preferred c :
  change_ln c <> Some 0 -> resolved_line c = preferred_line c.
Proof.
  destruct c as [ln s|ln s|ln1 ln2 s]; cbn; intros H; try reflexivity;
    (destruct (Z.eqb_spec ln 0) as [->|_]; [congruence|reflexivity]).
Qed.

(** C7: every change line of the prompt is prefixed with the new-file line
    number when the change has one and with the old-file line number
    otherwise (line numbers of a diff being non-zero): an added line at 5
    shows 5, a deleted line at 3 shows 3. *)
Theorem createPrompt_prefers_new_line_number :
  forall file chunk prDetails,
    (forall c, In c (changes chunk) -> change_ln c <> Some 0) ->
    createPrompt file chunk prDetails
    = prompt_preamble file prDetails ++ content chunk ++ nl ++
      String.concat nl
        (map (fun c => interpolate_number (preferred_line c) ++ " " ++ change_content c)
             (changes chunk)) ++ nl ++ fence ++ nl
    /\ (forall c, In c (changes chunk) ->
          resolved_line c
          = match newLineNumber c with
            | Some n => Some n
            | None => oldLineNumber c
            end)
    /\ (forall c, In c (changes chunk) ->
          newLineNumber c = Some 5 -> oldLineNumber c = None ->
          render_change c = "5 " ++ change_content c)
    /\ (forall c, In c (changes chunk) ->
          newLineNumber c = None -> oldLineNumber c = Some 3 ->
          render_change c = "3 " ++ change_content c).
Proof.
  intros file chunk prDetails Hnz.
  assert (Hres : forall c, In c (changes chunk) -> resolved_line c = preferred_line c)
    by (intros c Hc; apply resolved_line_preferred, Hnz, Hc).
  split; [|split; [exact Hres|split]].
  - unfold createPrompt.
    rewrite (map_ext_in render_change
               (fun c => interpolate_number (preferred_line c) ++ " " ++ change_content c));
      [reflexivity|].
    intros c Hc. unfold render_change. now rewrite Hres.
  - intros c Hc Hnew Hold. unfold render_change.
    rewrite (Hres c Hc). unfold preferred_line. rewrite Hnew. reflexivity.
  - intros c Hc Hnew Hold. unfold render_change.
    rewrite (Hres c Hc). unfold preferred_line. rewrite Hnew, Hold. reflexivity.
Qed.

Lemma createPrompt_prefers_new_line_number_witness :
  createPrompt Sample.a_ts Sample.hunk Sample.pr
  = prompt_preamble Sample.a_ts Sample.pr ++
    "@@ -1,2 +1,3 @@" ++ nl ++
    "1  const a = 1;" ++ nl ++
    "2 +let b = 2;" ++ nl ++
    "2 -var b;" ++ nl ++
    fence ++ nl.
Proof.
  etransitivity.
  - apply (proj1 (createPrompt_prefers_new_line_number Sample.a_ts Sample.hunk Sample.pr
                    ltac:(intros c [<-|[<-|[<-|[]]]]; discriminate))).
  - reflexivity.
Defined.

(** ** The path filter *)

Section PathFilterFacts.

Variable minimatch : string -> string -> bool.

Lemma filteredDiff_In patterns parsedDiff file :
  In file (filteredDiff minimatch patterns parsedDiff)
  <-> In file parsedDiff
      /\ forall pattern, In pattern patterns ->
                         minimatch (to_or_empty file) pattern = false.
Proof.
  unfold filteredDiff. rewrite filter_In, negb_true_iff.
  split; intros [Hin H]; (split; [assumption|]).
  - intros pattern Hp. destruct (minimatch (to_or_empty file) pattern) eqn:Hm; [|reflexivity].
    assert (existsb (fun pattern => minimatch (to_or_empty file) pattern) patterns = true)
      by (apply existsb_exists; eauto).
    congruence.
  - destruct (existsb _ patterns) eqn:He; [|reflexivity].
    apply existsb_exists in He as (pattern & Hp & Hm).
    rewrite (H pattern Hp) in Hm. discriminate.
Qed.

Lemma filteredDiff_commutes_filter keep patterns parsedDiff :
  filteredDiff minimatch patterns (filter keep parsedDiff)
  = filter keep (filteredDiff minimatch patterns parsedDiff).
Proof.
  unfold filteredDiff. induction parsedDiff as [|file rest IH]; [reflexivity|].
  cbn [filter].
  destruct (keep file) eqn:Hk, (negb (existsb _ patterns)) eqn:Hm;
    cbn [filter]; rewrite ?Hk, ?Hm, IH; reflexivity.
Qed.

End PathFilterFacts.

(** C4: the path filter removes exactly the entries whose target path
    matches at least one configured pattern (so a path matching "*.md" goes
    when "*.md" is configured), keeps every entry that matches none, in
    order, and removes nothing when the pattern list is empty. *)
Theorem filteredDiff_removes_exactly_matches :
  forall (minimatch : string -> string -> bool) (patterns : list string)
         (parsedDiff : list File),
    (forall file,
        In file (filteredDiff minimatch patterns parsedDiff)
        <-> In file parsedDiff
            /\ ~ exists pattern, In pattern patterns
                                 /\ minimatch (to_or_empty file) pattern = true)
    /\ (forall file,
           In "*.md" patterns -> minimatch (to_or_empty file) "*.md" = true ->
           ~ In file (filteredDiff minimatch patterns parsedDiff))
    /\ (forall before file after,
           parsedDiff = (before ++ file :: after)%list ->
           filteredDiff minimatch patterns parsedDiff
           = (filteredDiff minimatch patterns before
              ++ (if existsb (minimatch (to_or_empty file)) patterns then [] else [file])
              ++ filteredDiff minimatch patterns after)%list)
    /\ filteredDiff minimatch [] parsedDiff = parsedDiff.
Proof.
  intros minimatch patterns parsedDiff. split; [|split; [|split]].
  - intros file. rewrite filteredDiff_In. split; intros [Hin H]; (split; [assumption|]).
    + intros (pattern & Hp & Hm). rewrite (H pattern Hp) in Hm. discriminate.
    + intros pattern Hp. destruct (minimatch (to_or_empty file) pattern) eqn:Hm; [|reflexivity].
      exfalso. apply H. eauto.
  - intros file Hp Hm Hin. apply filteredDiff_In in Hin as [_ H].
    rewrite (H _ Hp) in Hm. discriminate.
  - intros before file after ->. unfold filteredDiff.
    rewrite filter_app. cbn [filter].
    change (fun pattern => minimatch (to_or_empty file) pattern)
      with (minimatch (to_or_empty file)).
    destruct (existsb (minimatch (to_or_empty file)) patterns); reflexivity.
  - unfold filteredDiff. induction parsedDiff as [|file rest IH]; [reflexivity|].
    cbn [filter existsb negb] in *. now rewrite IH.
Qed.

Lemma filteredDiff_removes_exactly_matches_witness :
  filteredDiff glob (excludePatterns "*.md, dist/*") [Sample.readme; Sample.a_ts]
  = [Sample.a_ts]
  /\ ~ In Sample.readme
       (filteredDiff glob (excludePatterns "*.md, dist/*") [Sample.readme; Sample.a_ts]).
Proof.
  split.
  - vm_compute. reflexivity.
  - apply (filteredDiff_removes_exactly_matches glob (excludePatterns "*.md, dist/*")
             [Sample.readme; Sample.a_ts]).
    + vm_compute. left. reflexivity.
    + vm_compute. reflexivity.
Defined.

(** ** The model call and the loops *)

Local Open Scope list_scope.

Section ProgramFacts.

Context {W : Type}.
Variable io : Collaborators W.

Lemma bind_Normal {A B} (m : M W A) (k : A -> M W B) r a r' :
  m r = (Normal a, r') -> bind m k r = k a r'.
Proof. intros H. unfold bind. now rewrite H. Qed.

Lemma bind_Throw {A B} (m : M W A) (k : A -> M W B) r e r' :
  m r = (Throw e, r') -> bind m k r = (Throw e, r').
Proof. intros H. unfold bind. now rewrite H. Qed.

(** The [catch] block returns null when it can log the caught value and
    throws a TypeError when it cannot; it leaves the run state alone. *)
Lemma getAIResponse_catch_logs error (r : Run W) :
  can_log error = true -> getAIResponse_catch error r = (Normal None, r).
Proof.
  unfold can_log, getAIResponse_catch.
  destruct (error_constructor_name error); [|discriminate].
  destruct (error_response error) as [response|]; [|reflexivity].
  destruct (response_json response); [reflexivity|discriminate].
Qed.

Lemma getAIResponse_catch_throws error (r : Run W) :
  can_log error = false ->
  exists e', getAIResponse_catch error r = (Throw e', r)
             /\ error_constructor_name e' = Some "TypeError"%string.
Proof.
  unfold can_log, getAIResponse_catch.
  destruct (error_constructor_name error); [|eexists; split; reflexivity].
  destruct (error_response error) as [response|]; [|discriminate].
  destruct (response_json response); [discriminate|]. eexists; split; reflexivity.
Qed.

Lemma getAIResponse_catch_state error (r : Run W) : snd (getAIResponse_catch error r) = r.
Proof.
  unfold getAIResponse_catch.
  destruct (error_constructor_name error); [|reflexivity].
  destruct (error_response error) as [response|]; [|reflexivity].
  destruct (response_json response); reflexivity.
Qed.

(** What [getAIResponse] does for each outcome of the model call. *)
Lemma getAIResponse_run prompt r :
  getAIResponse io prompt r
  = match fst (chat_completions_parse io prompt (world r)) with
    | Normal response =>
        (Normal match choices response with
                | [] => None
                | choice :: _ => reviews_or_null (message choice)
                end,
         {| world := snd (chat_completions_parse io prompt (world r));
            calls := calls r ++ [ChatParse prompt] |})
    | Throw e =>
        getAIResponse_catch e
          {| world := snd (chat_completions_parse io prompt (world r));
             calls := calls r ++ [ChatParse prompt] |}
    end.
Proof.
  unfold getAIResponse, try_catch, getAIResponse_try, bind, perform.
  destruct (chat_completions_parse io prompt (world r)) as [[response|e] w]; cbn.
  - destruct (choices response); reflexivity.
  - reflexivity.
Qed.

Lemma getAIResponse_state prompt r :
  snd (getAIResponse io prompt r)
  = {| world := snd (chat_completions_parse io prompt (world r));
       calls := calls r ++ [ChatParse prompt] |}.
Proof.
  rewrite getAIResponse_run.
  destruct (fst (chat_completions_parse io prompt (world r))); [reflexivity|].
  apply getAIResponse_catch_state.
Qed.

Lemma getAIResponse_calls prompt r answer r' :
  getAIResponse io prompt r = (Normal answer, r') ->
  calls r' = calls r ++ [ChatParse prompt].
Proof.
  intros H. pose proof (getAIResponse_state prompt r) as Hs.
  rewrite H in Hs. cbn [snd] in Hs. now rewrite Hs.
Qed.

Variable prDetails : PRDetails.

Lemma Answers_length r items answers r' :
  Answers io prDetails r items answers r' -> List.length items = List.length answers.
Proof. induction 1; cbn; congruence. Qed.

Lemma Answers_app r items1 answers1 r1 items2 answers2 r2 :
  Answers io prDetails r items1 answers1 r1 ->
  Answers io prDetails r1 items2 answers2 r2 ->
  Answers io prDetails r (items1 ++ items2) (answers1 ++ answers2) r2.
Proof.
  induction 1 as [|r file chunk answer r1' items answers r1 Hask _ IH]; intros H2.
  - exact H2.
  - cbn. eapply Answers_step; [exact Hask|]. apply IH, H2.
Qed.

Lemma Answers_functional r items answers r' :
  Answers io prDetails r items answers r' ->
  forall answers2 r2,
    Answers io prDetails r items answers2 r2 -> answers = answers2 /\ r' = r2.
Proof.
  induction 1 as [|r file chunk answer r1 items answers r' Hask _ IH];
    intros answers2 r2 H2; inversion H2; subst.
  - split; reflexivity.
  - match goal with
    | H : getAIResponse _ _ _ = (Normal ?a, ?s) |- _ =>
        rewrite Hask in H; injection H as <- <-
    end.
    match goal with
    | H : Answers _ _ _ items _ _ |- _ => destruct (IH _ _ H) as [-> ->]
    end.
    split; reflexivity.
Qed.

Lemma Answers_calls r items answers r' :
  Answers io prDetails r items answers r' ->
  calls r' = calls r ++ map (prompt_call prDetails) items.
Proof.
  induction 1 as [|r file chunk answer r1 items answers r' Hask _ IH].
  - cbn. now rewrite app_nil_r.
  - rewrite IH, (getAIResponse_calls _ _ _ _ Hask), <- app_assoc. reflexivity.
Qed.

(** When every error of the model client can be logged, every item gets an
    answer. *)
Lemma Answers_total items :
  (forall prompt w e,
      fst (chat_completions_parse io prompt w) = Throw e -> can_log e = true) ->
  forall r, exists answers r', Answers io prDetails r items answers r'.
Proof.
  intros Hlog. induction items as [|[file chunk] items IH]; intros r.
  - exists [], r. constructor.
  - pose proof (getAIResponse_run (createPrompt file chunk prDetails) r) as Hask.
    destruct (fst (chat_completions_parse io (createPrompt file chunk prDetails) (world r)))
      as [response|e] eqn:Hout.
    + match type of Hask with _ = (_, ?s) => destruct (IH s) as (answers & r' & HA) end.
      eexists (_ :: answers), r'. eapply Answers_step; [exact Hask|exact HA].
    + rewrite getAIResponse_catch_logs in Hask by (eapply Hlog; exact Hout).
      match type of Hask with _ = (_, ?s) => destruct (IH s) as (answers & r' & HA) end.
      eexists (_ :: answers), r'. eapply Answers_step; [exact Hask|exact HA].
Qed.

(** If an item got an answer in a run, the model gave it for that item's
    prompt in the state that the items before it left. *)
Lemma Answers_In r items answers r' :
  Answers io prDetails r items answers r' ->
  forall item answer,
    In (item, answer) (combine items answers) ->
    exists before after answers1 r0 r0',
      items = before ++ item :: after
      /\ Answers io prDetails r before answers1 r0
      /\ getAIResponse io (createPrompt (fst item) (snd item) prDetails) r0
         = (Normal answer, r0').
Proof.
  induction 1 as [|r file chunk answer0 r1 items answers r' Hask HA IH];
    intros item answer Hin; [destruct Hin|].
  cbn [combine] in Hin. destruct Hin as [Heq|Hin].
  - injection Heq as <- <-.
    exists [], items, [], r, r1. repeat split; [constructor|exact Hask].
  - destruct (IH item answer Hin) as (before & after & answers1 & r0 & r0' & -> & HB & Hget).
    exists ((file, chunk) :: before), after, (answer0 :: answers1), r0, r0'.
    repeat split; [|exact Hget]. eapply Answers_step; eassumption.
Qed.

Lemma contributions_app items1 answers1 items2 answers2 :
  List.length items1 = List.length answers1 ->
  contributions (items1 ++ items2) (answers1 ++ answers2)
  = contributions items1 answers1 ++ contributions items2 answers2.
Proof.
  revert answers1. induction items1 as [|item items1 IH]; intros [|answer answers1] Hlen;
    try discriminate; [reflexivity|].
  cbn. rewrite IH by (cbn in Hlen; congruence). now rewrite app_assoc.
Qed.

(** *** The loops as one loop over the work items *)

Lemma analyzeItems_app items1 items2 : forall comments r,
  analyzeItems io prDetails (items1 ++ items2) comments r
  = bind (analyzeItems io prDetails items1 comments)
         (fun comments' => analyzeItems io prDetails items2 comments') r.
Proof.
  induction items1 as [|item items1 IH]; intros comments r; [reflexivity|].
  cbn [app analyzeItems]. unfold bind.
  destruct (getAIResponse io _ r) as [[answer|e] r1]; [|reflexivity].
  rewrite IH. reflexivity.
Qed.

Lemma analyzeChunks_items file cs : forall comments r,
  analyzeChunks io file prDetails cs comments r
  = analyzeItems io prDetails (map (pair file) cs) comments r.
Proof.
  induction cs as [|chunk rest IH]; intros comments r; [reflexivity|].
  cbn [analyzeChunks map analyzeItems fst snd]. unfold bind.
  destruct (getAIResponse io _ r) as [[[aiResponse|]|e] r1]; cbn [contribution fst snd].
  - apply IH.
  - rewrite app_nil_r. apply IH.
  - reflexivity.
Qed.

Lemma analyzeFiles_items files : forall comments r,
  analyzeFiles io prDetails files comments r
  = analyzeItems io prDetails (workItems files) comments r.
Proof.
  induction files as [|file rest IH]; intros comments r; [reflexivity|].
  cbn [analyzeFiles workItems flat_map]. fold (workItems rest).
  destruct (is_dev_null file).
  - apply IH.
  - rewrite analyzeItems_app. unfold bind. rewrite analyzeChunks_items.
    destruct (analyzeItems io prDetails (map (pair file) (chunks file)) comments r)
      as [[comments'|e] r1]; [apply IH|reflexivity].
Qed.

Lemma analyzeCode_items parsedDiff r :
  analyzeCode io parsedDiff prDetails r
  = analyzeItems io prDetails (workItems parsedDiff) [] r.
Proof. apply analyzeFiles_items. Qed.

Lemma analyzeItems_of_Answers r items answers r' :
  Answers io prDetails r items answers r' ->
  forall comments,
    analyzeItems io prDetails items comments r
    = (Normal (comments ++ contributions items answers), r').
Proof.
  induction 1 as [|r file chunk answer r1 items answers r' Hask _ IH]; intros comments.
  - cbn. now rewrite app_nil_r.
  - cbn [analyzeItems fst snd]. rewrite (bind_Normal _ _ _ _ _ Hask), IH.
    cbn [contributions]. now rewrite app_assoc.
Qed.

Lemma analyzeItems_returns items : forall comments r comments' r',
  analyzeItems io prDetails items comments r = (Normal comments', r') ->
  exists answers,
    Answers io prDetails r items answers r'
    /\ comments' = comments ++ contributions items answers.
Proof.
  induction items as [|[file chunk] items IH]; intros comments r comments' r' Hrun.
  - injection Hrun as <- <-. exists []. split; [constructor|]. cbn. now rewrite app_nil_r.
  - cbn [analyzeItems fst snd] in Hrun. unfold bind in Hrun.
    destruct (getAIResponse io (createPrompt file chunk prDetails) r)
      as [[answer|e] r1] eqn:Hask; [|discriminate].
    destruct (IH _ _ _ _ Hrun) as (answers & HA & ->).
    exists (answer :: answers). split.
    + eapply Answers_step; eassumption.
    + cbn [contributions]. now rewrite app_assoc.
Qed.

(** In any run, returning or throwing, the model calls made are those for
    the first work items, in order; all of them when the loop returns. *)
Lemma analyzeItems_sent items : forall comments r,
  exists sent rest,
    items = sent ++ rest
    /\ calls (snd (analyzeItems io prDetails items comments r))
       = calls r ++ map (prompt_call prDetails) sent
    /\ (forall comments',
           fst (analyzeItems io prDetails items comments r) = Normal comments' ->
           rest = []).
Proof.
  induction items as [|item items IH]; intros comments r.
  - exists [], []. cbn. rewrite app_nil_r. auto.
  - cbn [analyzeItems]. unfold bind.
    pose proof (getAIResponse_state (createPrompt (fst item) (snd item) prDetails) r) as Hs.
    destruct (getAIResponse io _ r) as [[answer|e] r1]; cbn [snd] in Hs; subst r1.
    + match goal with
      | |- context [analyzeItems io prDetails items ?c ?s] =>
          destruct (IH c s) as (sent & rest & -> & Hcalls & Hall)
      end.
      exists (item :: sent), rest. repeat split.
      * rewrite Hcalls. cbn [calls map]. rewrite <- app_assoc. reflexivity.
      * exact Hall.
    + exists [item], items. repeat split.
      cbn. intros comments' H. discriminate H.
Qed.

Lemma analyzeCode_of_Answers parsedDiff r answers r' :
  Answers io prDetails r (workItems parsedDiff) answers r' ->
  analyzeCode io parsedDiff prDetails r
  = (Normal (contributions (workItems parsedDiff) answers), r').
Proof.
  intros HA. rewrite analyzeCode_items. apply (analyzeItems_of_Answers _ _ _ _ HA []).
Qed.

Lemma analyzeCode_answers parsedDiff r comments r' :
  analyzeCode io parsedDiff prDetails r = (Normal comments, r') ->
  exists answers,
    Answers io prDetails r (workItems parsedDiff) answers r'
    /\ comments = contributions (workItems parsedDiff) answers.
Proof. rewrite analyzeCode_items. apply analyzeItems_returns. Qed.

Lemma analyzeCode_calls parsedDiff r comments r' :
  analyzeCode io parsedDiff prDetails r = (Normal comments, r') ->
  calls r' = calls r ++ map (prompt_call prDetails) (workItems parsedDiff).
Proof.
  intros Hrun. destruct (analyzeCode_answers _ _ _ _ Hrun) as (answers & HA & _).
  apply (Answers_calls _ _ _ _ HA).
Qed.

Lemma analyzeCode_sent parsedDiff r :
  exists sent rest,
    workItems parsedDiff = sent ++ rest
    /\ calls (snd (analyzeCode io parsedDiff prDetails r))
       = calls r ++ map (prompt_call prDetails) sent
    /\ (forall comments,
           fst (analyzeCode io parsedDiff prDetails r) = Normal comments -> rest = []).
Proof. rewrite analyzeCode_items. apply analyzeItems_sent. Qed.

Lemma analyzeCode_no_work parsedDiff r :
  workItems parsedDiff = [] ->
  analyzeCode io parsedDiff prDetails r = (Normal [], r).
Proof. intros Hw. rewrite analyzeCode_items, Hw. reflexivity. Qed.

Lemma analyzeCode_by_workItems parsedDiff1 parsedDiff2 r :
  workItems parsedDiff1 = workItems parsedDiff2 ->
  analyzeCode io parsedDiff1 prDetails r = analyzeCode io parsedDiff2 prDetails r.
Proof. intros Heq. rewrite !analyzeCode_items, Heq. reflexivity. Qed.

Lemma workItems_In parsedDiff file chunk :
  In (file, chunk) (workItems parsedDiff)
  <-> In file parsedDiff /\ is_dev_null file = false /\ In chunk (chunks file).
Proof.
  unfold workItems. rewrite in_flat_map. split.
  - intros (f & Hf & Hin). destruct (is_dev_null f) eqn:Hdel; [destruct Hin|].
    apply in_map_iff in Hin as (c & Heq & Hc). injection Heq as -> ->. auto.
  - intros (Hf & Hdel & Hc). exists file. split; [assumption|].
    rewrite Hdel. apply in_map, Hc.
Qed.

Lemma workItems_app files1 files2 :
  workItems (files1 ++ files2) = workItems files1 ++ workItems files2.
Proof. unfold workItems. apply flat_map_app. Qed.

Lemma workItems_without_deleted parsedDiff :
  workItems (filter (fun file => negb (is_dev_null file)) parsedDiff) = workItems parsedDiff.
Proof.
  induction parsedDiff as [|file rest IH]; [reflexivity|].
  cbn [filter]. destruct (is_dev_null file) eqn:Hdel; cbn [negb workItems flat_map].
  - rewrite Hdel. exact IH.
  - rewrite Hdel. fold (workItems rest).
    fold (workItems (filter (fun file => negb (is_dev_null file)) rest)). now rewrite IH.
Qed.

Lemma contributions_origin items : forall answers comment,
  In comment (contributions items answers) ->
  exists item aiResponse,
    In (item, Some aiResponse) (combine items answers)
    /\ In comment (createComment (fst item) (snd item) aiResponse).
Proof.
  induction items as [|item items IH]; intros [|answer answers] comment Hin;
    try destruct Hin.
  cbn in Hin. apply in_app_or in Hin as [Hin|Hin].
  - destruct answer as [aiResponse|]; [|destruct Hin].
    exists item, aiResponse. split; [now left|exact Hin].
  - destruct (IH _ _ Hin) as (item' & a & Hitem & Hc).
    exists item', a. split; [now right|assumption].
Qed.

Lemma contributions_path items : forall answers comment,
  In comment (contributions items answers) ->
  exists item, In item items /\ to (fst item) = Some (path comment).
Proof.
  intros answers comment Hin.
  apply contributions_origin in Hin as (item & aiResponse & Hitem & Hc).
  exists item. split; [apply (in_combine_l _ _ _ _ Hitem)|].
  apply (createComment_path _ _ _ _ Hc).
Qed.

Lemma no_items_nil {A} (l : list A) : (forall x, ~ In x l) -> l = [].
Proof. destruct l as [|x l]; [reflexivity|]. intros H. destruct (H x). now left. Qed.

End ProgramFacts.

(** C5: what getAIResponse makes of each outcome of the model call.  A
    thrown error (transport error, timeout, unparsable or non-conforming
    response) gives null when the catch block can log it; when it cannot
    (the constructor name of the thrown value cannot be read, or its
    response cannot be serialised to JSON) the catch block itself throws
    and the failure leaves getAIResponse.  A response never makes it throw:
    without a choice or without parsed content it gives null, and with
    parsed content {reviews: []} it gives the empty sequence, which is not
    null. *)
Theorem getAIResponse_null_unless_logging_throws :
  forall (W : Type) (io : Collaborators W) (prompt : string) (r : Run W),
    (forall e w,
        chat_completions_parse io prompt (world r) = (Throw e, w) ->
        can_log e = true ->
        getAIResponse io prompt r
        = (Normal None, {| world := w; calls := calls r ++ [ChatParse prompt] |}))
    /\ (forall e w,
           chat_completions_parse io prompt (world r) = (Throw e, w) ->
           can_log e = false ->
           exists e',
             getAIResponse io prompt r
             = (Throw e', {| world := w; calls := calls r ++ [ChatParse prompt] |}))
    /\ (forall response w,
           chat_completions_parse io prompt (world r) = (Normal response, w) ->
           choices response = [] ->
           fst (getAIResponse io prompt r) = Normal None)
    /\ (forall response w choice others,
           chat_completions_parse io prompt (world r) = (Normal response, w) ->
           choices response = choice :: others ->
           message choice = None
           \/ (exists m, message choice = Some m /\ parsed m = None) ->
           fst (getAIResponse io prompt r) = Normal None)
    /\ (forall response w choice others m found,
           chat_completions_parse io prompt (world r) = (Normal response, w) ->
           choices response = choice :: others ->
           message choice = Some m ->
           parsed m = Some {| reviews := found |} ->
           fst (getAIResponse io prompt r) = Normal (Some found))
    /\ (forall response w choice others m,
           chat_completions_parse io prompt (world r) = (Normal response, w) ->
           choices response = choice :: others ->
           message choice = Some m ->
           parsed m = Some {| reviews := [] |} ->
           fst (getAIResponse io prompt r) = Normal (Some [])
           /\ fst (getAIResponse io prompt r) <> Normal None).
Proof.
  intros W io prompt r. rewrite getAIResponse_run.
  split; [|split; [|split; [|split; [|split]]]].
  - intros e w -> Hlog. cbn [fst snd]. now apply getAIResponse_catch_logs.
  - intros e w -> Hlog. cbn [fst snd].
    destruct (getAIResponse_catch_throws e
                {| world := w; calls := calls r ++ [ChatParse prompt] |} Hlog)
      as (e' & -> & _).
    exists e'. reflexivity.
  - intros response w -> Hc. cbn [fst]. now rewrite Hc.
  - intros response w choice others -> Hc [Hm|(m & Hm & Hp)];
      cbn [fst]; rewrite Hc; unfold reviews_or_null; rewrite Hm; [reflexivity|].
    now rewrite Hp.
  - intros response w choice others m found -> Hc Hm Hp.
    cbn [fst]. rewrite Hc. unfold reviews_or_null. now rewrite Hm, Hp.
  - intros response w choice others m -> Hc Hm Hp.
    cbn [fst]. rewrite Hc. unfold reviews_or_null. rewrite Hm, Hp.
    split; [reflexivity|discriminate].
Qed.

Lemma getAIResponse_null_unless_logging_throws_witness :
  (exists e',
      getAIResponse
        (Sample.collaborators "opened" (Throw Scenario.with_circular_response))
        "review this" Sample.start
      = (Throw e', {| world := 1%nat; calls := [ChatParse "review this"] |}))
  /\ getAIResponse (Sample.collaborators "opened" (Throw Sample.timeout))
       "review this" Sample.start
     = (Normal None, {| world := 1%nat; calls := [ChatParse "review this"] |}).
Proof.
  split.
  - apply (proj1 (proj2 (getAIResponse_null_unless_logging_throws nat
             (Sample.collaborators "opened" (Throw Scenario.with_circular_response))
             "review this" Sample.start)) Scenario.with_circular_response 1%nat);
      reflexivity.
  - apply (proj1 (getAIResponse_null_unless_logging_throws nat
             (Sample.collaborators "opened" (Throw Sample.timeout))
             "review this" Sample.start) Sample.timeout 1%nat);
      reflexivity.
Defined.

(** C6: a chunk whose answer is null contributes nothing and the loops go
    on: when the chunks before it and after it get their answers, the
    result of analyzeCode is what those chunks contribute, in order.  When
    moreover every error of the model client is one that getAIResponse can
    log, analyzeCode asks the model about every chunk of every file that is
    not a deletion and returns the concatenation of the contributions. *)
Theorem analyzeCode_continues_after_null :
  forall (W : Type) (io : Collaborators W) (parsedDiff : list File)
         (prDetails : PRDetails) (r : Run W),
    (forall earlier file chunk later answers1 answers2 r1 r2 r3,
        workItems parsedDiff = earlier ++ (file, chunk) :: later ->
        Answers io prDetails r earlier answers1 r1 ->
        getAIResponse io (createPrompt file chunk prDetails) r1 = (Normal None, r2) ->
        Answers io prDetails r2 later answers2 r3 ->
        analyzeCode io parsedDiff prDetails r
        = (Normal (contributions earlier answers1 ++ contributions later answers2), r3)
        /\ calls r3 = calls r ++ map (prompt_call prDetails) (workItems parsedDiff))
    /\ ((forall prompt w e,
            fst (chat_completions_parse io prompt w) = Throw e -> can_log e = true) ->
        exists answers r',
          Answers io prDetails r (workItems parsedDiff) answers r'
          /\ analyzeCode io parsedDiff prDetails r
             = (Normal (contributions (workItems parsedDiff) answers), r')
          /\ calls r' = calls r ++ map (prompt_call prDetails) (workItems parsedDiff)).
Proof.
  intros W io parsedDiff prDetails r. split.
  - intros earlier file chunk later answers1 answers2 r1 r2 r3 Hitems H1 Hnull H2.
    assert (Hall : Answers io prDetails r (workItems parsedDiff)
                     (answers1 ++ None :: answers2) r3).
    { rewrite Hitems. eapply Answers_app; [exact H1|]. eapply Answers_step; eassumption. }
    split; [|apply (Answers_calls _ _ _ _ _ _ Hall)].
    rewrite (analyzeCode_of_Answers _ _ _ _ _ _ Hall), Hitems.
    rewrite contributions_app by (eapply Answers_length; eassumption).
    reflexivity.
  - intros Hlog.
    destruct (Answers_total io prDetails (workItems parsedDiff) Hlog r) as (answers & r' & HA).
    exists answers, r'. repeat split; try assumption.
    + apply (analyzeCode_of_Answers _ _ _ _ _ _ HA).
    + apply (Answers_calls _ _ _ _ _ _ HA).
Qed.

Lemma analyzeCode_continues_after_null_witness :
  analyzeCode (Sample.collaborators "opened" (Throw Sample.timeout))
    [Sample.a_ts; Sample.readme] Sample.pr Sample.start
  = (Normal [ {| body := "avoid mutable state"; path := "README.md";
                 line := JsNumber.of_Z 2 |} ],
     {| world := 2%nat;
        calls := [ChatParse (createPrompt Sample.a_ts Sample.hunk Sample.pr);
                  ChatParse (createPrompt Sample.readme Sample.hunk Sample.pr)] |}).
Proof.
  destruct (proj1 (analyzeCode_continues_after_null nat
                     (Sample.collaborators "opened" (Throw Sample.timeout))
                     [Sample.a_ts; Sample.readme] Sample.pr Sample.start)
              [] Sample.a_ts Sample.hunk [(Sample.readme, Sample.hunk)]
              [] [Some [Sample.finding "2"]] Sample.start
              {| world := 1%nat;
                 calls := [ChatParse (createPrompt Sample.a_ts Sample.hunk Sample.pr)] |}
              {| world := 2%nat;
                 calls := [ChatParse (createPrompt Sample.a_ts Sample.hunk Sample.pr);
                           ChatParse (createPrompt Sample.readme Sample.hunk Sample.pr)] |})
    as [Hrun _].
  - reflexivity.
  - constructor.
  - reflexivity.
  - eapply Answers_step; [reflexivity|constructor].
  - exact Hrun.
Defined.

(** C3: whatever the exclusion patterns, a file whose target path is
    "/dev/null" is skipped: none of its chunks is a work item, so no prompt
    is built for it (the model calls of any run are those for the first
    work items); the run is the same as without the deleted entries; and
    when analyzeCode returns, it has asked about every work item and no
    comment of the result carries the path "/dev/null". *)
Theorem deleted_files_are_skipped :
  forall (W : Type) (io : Collaborators W) (patterns : list string)
         (parsedDiff : list File) (prDetails : PRDetails) (r : Run W),
    let reviewed := filteredDiff (minimatch io) patterns parsedDiff in
    (forall file chunk,
        to file = Some "/dev/null" -> ~ In (file, chunk) (workItems reviewed))
    /\ (exists sent rest,
           workItems reviewed = sent ++ rest
           /\ calls (snd (analyzeCode io reviewed prDetails r))
              = calls r ++ map (prompt_call prDetails) sent)
    /\ analyzeCode io reviewed prDetails r
       = analyzeCode io
           (filteredDiff (minimatch io) patterns
              (filter (fun file => negb (is_dev_null file)) parsedDiff))
           prDetails r
    /\ (forall comments r',
           analyzeCode io reviewed prDetails r = (Normal comments, r') ->
           calls r' = calls r ++ map (prompt_call prDetails) (workItems reviewed)
           /\ forall comment, In comment comments -> path comment <> "/dev/null").
Proof.
  intros W io patterns parsedDiff prDetails r reviewed.
  split; [|split; [|split]].
  - intros file chunk Hto Hin. apply workItems_In in Hin as (_ & Hdel & _).
    unfold is_dev_null in Hdel. rewrite Hto in Hdel. discriminate.
  - destruct (analyzeCode_sent io prDetails reviewed r) as (sent & rest & Hw & Hcalls & _).
    exists sent, rest. split; assumption.
  - apply analyzeCode_by_workItems.
    rewrite filteredDiff_commutes_filter. symmetry. apply workItems_without_deleted.
  - intros comments r' Hrun. split; [apply (analyzeCode_calls io _ _ _ _ _ Hrun)|].
    destruct (analyzeCode_answers io prDetails _ _ _ _ Hrun) as (answers & _ & ->).
    intros comment Hin Hpath.
    apply contributions_path in Hin as ([file chunk] & Hitem & Hto).
    apply workItems_In in Hitem as (_ & Hdel & _).
    cbn [fst] in Hto. unfold is_dev_null in Hdel. rewrite Hto, Hpath in Hdel.
    discriminate.
Qed.

Lemma deleted_files_are_skipped_witness :
  ~ In (Sample.deleted, Sample.hunk)
       (workItems (filteredDiff glob ["*.md"] [Sample.deleted; Sample.a_ts])).
Proof.
  apply (proj1 (deleted_files_are_skipped nat
                  (Sample.collaborators "opened" (Normal Sample.one_finding))
                  ["*.md"] [Sample.deleted; Sample.a_ts] Sample.pr Sample.start)).
  reflexivity.
Defined.

(** ** The review submitter and [main] *)

Section MainFacts.

Context {W : Type}.
Variable io : Collaborators W.

Lemma submitReview_run prDetails comments r :
  submitReview io prDetails comments r
  = match comments with
    | [] => (Normal tt, r)
    | _ :: _ =>
        (fst (pulls_createReview io (owner prDetails) (repo prDetails)
                (pull_number prDetails) comments "COMMENT" (world r)),
         {| world := snd (pulls_createReview io (owner prDetails) (repo prDetails)
                            (pull_number prDetails) comments "COMMENT" (world r));
            calls := calls r ++ [CreateReview (owner prDetails) (repo prDetails)
                                   (pull_number prDetails) comments "COMMENT"] |})
    end.
Proof.
  unfold submitReview. destruct comments as [|c rest]; [reflexivity|].
  replace (0 <? Z.of_nat (List.length (c :: rest)))%Z with true
    by (symmetry; apply Z.ltb_lt; cbn [List.length]; lia).
  unfold createReviewComment, perform.
  destruct (pulls_createReview io _ _ _ _ _ (world r)); reflexivity.
Qed.

Lemma reviewDiff_run prDetails diff r comments r1 :
  JsString.truthy diff = true ->
  analyzeCode io
    (filteredDiff (minimatch io) (excludePatterns (exclude_input io)) (parseDiff io diff))
    prDetails r = (Normal comments, r1) ->
  reviewDiff io prDetails (Some diff) r = submitReview io prDetails comments r1.
Proof.
  intros Ht Hrun. unfold reviewDiff. rewrite Ht. now rewrite (bind_Normal _ _ _ _ _ Hrun).
Qed.

Lemma reviewDiff_throw prDetails diff r e r1 :
  JsString.truthy diff = true ->
  analyzeCode io
    (filteredDiff (minimatch io) (excludePatterns (exclude_input io)) (parseDiff io diff))
    prDetails r = (Throw e, r1) ->
  reviewDiff io prDetails (Some diff) r = (Throw e, r1).
Proof.
  intros Ht Hrun. unfold reviewDiff. rewrite Ht. now rewrite (bind_Throw _ _ _ _ _ Hrun).
Qed.

Lemma reviewDiff_falsy prDetails diff r :
  diff = None \/ diff = Some EmptyString ->
  reviewDiff io prDetails diff r = (Normal tt, r).
Proof. intros [->| ->]; reflexivity. Qed.

Lemma getPRDetails_run r event repository :
  readEvent io (world r) = Normal event ->
  event_repository event = Some repository ->
  getPRDetails io r
  = (match fst (pulls_get io (repository_owner_login repository)
                  (repository_name repository) (event_number event) (world r)) with
     | Normal prResponse =>
         Normal {| owner := repository_owner_login repository;
                   repo := repository_name repository;
                   pull_number := event_number event;
                   title := match pull_title prResponse with
                            | Some t => t
                            | None => EmptyString
                            end;
                   description := match pull_body prResponse with
                                  | Some b => b
                                  | None => EmptyString
                                  end |}
     | Throw e => Throw e
     end,
     {| world := snd (pulls_get io (repository_owner_login repository)
                        (repository_name repository) (event_number event) (world r));
        calls := calls r ++ [PullsGet (repository_owner_login repository)
                               (repository_name repository) (event_number event)] |}).
Proof.
  intros He Hr. unfold getPRDetails, bind, observe, perform, throw, ret.
  rewrite He, Hr.
  destruct (pulls_get io _ _ _ (world r)) as [[prResponse|e] w]; reflexivity.
Qed.

Lemma getPRDetails_calls r prDetails r1 :
  getPRDetails io r = (Normal prDetails, r1) ->
  calls r1 = calls r ++ [PullsGet (owner prDetails) (repo prDetails) (pull_number prDetails)].
Proof.
  unfold getPRDetails, bind, observe, perform, throw, ret.
  destruct (readEvent io (world r)) as [event|e]; [|discriminate].
  destruct (event_repository event) as [repository|]; [|discriminate].
  destruct (pulls_get io _ _ _ (world r)) as [[prResponse|e] w]; [|discriminate].
  intros H. injection H as <- <-. reflexivity.
Qed.

Lemma getPRDetails_throw_calls r e r1 :
  getPRDetails io r = (Throw e, r1) ->
  exists made, calls r1 = calls r ++ made
               /\ Forall (fun c => is_metadata_fetch c = true) made.
Proof.
  unfold getPRDetails, bind, observe, perform, throw, ret.
  destruct (readEvent io (world r)) as [event|e0].
  - destruct (event_repository event) as [repository|].
    + destruct (pulls_get io _ _ _ (world r)) as [[prResponse|e1] w]; [discriminate|].
      intros H. injection H as _ <-. cbn [calls].
      eexists. split; [reflexivity|]. repeat constructor.
    + intros H. injection H as _ <-. exists []. split; [now rewrite app_nil_r|constructor].
  - intros H. injection H as _ <-. exists []. split; [now rewrite app_nil_r|constructor].
Qed.

Lemma action_is_true eventData name :
  action_is eventData name = true <-> event_action eventData = Some name.
Proof.
  unfold action_is. destruct (event_action eventData) as [a|].
  - rewrite String.eqb_eq. split; congruence.
  - split; discriminate.
Qed.

Lemma action_is_false eventData name :
  action_is eventData name = false <-> event_action eventData <> Some name.
Proof.
  rewrite <- action_is_true. destruct (action_is eventData name); split; congruence.
Qed.

(** The exit code is 0 when the [try] block of [main] completes and 1 when
    it throws, whether or not the [catch] block can log the error. *)
Lemma main_exit r :
  main io r = (exit_code (fst (main_try io r)), snd (main_try io r)).
Proof.
  unfold main, try_catch, bind, main_catch, throw, ret.
  destruct (main_try io r) as [[[]|e] r']; [reflexivity|]. cbn [fst snd exit_code].
  destruct (error_constructor_name e); reflexivity.
Qed.

Lemma main_calls r : calls (snd (main io r)) = calls (snd (main_try io r)).
Proof. rewrite main_exit. reflexivity. Qed.

Lemma main_try_after_details r prDetails r1 eventData :
  getPRDetails io r = (Normal prDetails, r1) ->
  readEvent io (world r1) = Normal eventData ->
  main_try io r
  = if action_is eventData "opened" then
      bind (getDiff io (owner prDetails) (repo prDetails) (pull_number prDetails))
           (reviewDiff io prDetails) r1
    else if action_is eventData "synchronize" then
      bind (perform (CompareCommits (owner prDetails) (repo prDetails)
                       (event_before eventData) (event_after eventData))
              (repos_compareCommits io (owner prDetails) (repo prDetails)
                 (event_before eventData) (event_after eventData)))
           (fun diff => reviewDiff io prDetails (Some diff)) r1
    else (Normal tt, r1).
Proof.
  intros Hd He. unfold main_try. rewrite (bind_Normal _ _ _ _ _ Hd).
  unfold bind at 1, observe. rewrite He.
  destruct (action_is eventData "opened"); [reflexivity|].
  destruct (action_is eventData "synchronize"); reflexivity.
Qed.

Lemma main_try_details_throw r e r1 :
  getPRDetails io r = (Throw e, r1) -> main_try io r = (Throw e, r1).
Proof. intros H. unfold main_try. now rewrite (bind_Throw _ _ _ _ _ H). Qed.

Lemma main_try_event_throw r prDetails r1 e :
  getPRDetails io r = (Normal prDetails, r1) ->
  readEvent io (world r1) = Throw e ->
  main_try io r = (Throw e, r1).
Proof.
  intros Hd He. unfold main_try. rewrite (bind_Normal _ _ _ _ _ Hd).
  unfold bind, observe. now rewrite He.
Qed.

Lemma main_try_opened_diff r prDetails r1 eventData :
  getPRDetails io r = (Normal prDetails, r1) ->
  readEvent io (world r1) = Normal eventData ->
  event_action eventData = Some "opened" ->
  main_try io r
  = match fst (pulls_get_diff io (owner prDetails) (repo prDetails) (pull_number prDetails)
                 (world r1)) with
    | Normal diff =>
        reviewDiff io prDetails diff
          {| world := snd (pulls_get_diff io (owner prDetails) (repo prDetails)
                             (pull_number prDetails) (world r1));
             calls := calls r1 ++ [PullsGetDiff (owner prDetails) (repo prDetails)
                                     (pull_number prDetails)] |}
    | Throw e =>
        (Throw e,
         {| world := snd (pulls_get_diff io (owner prDetails) (repo prDetails)
                            (pull_number prDetails) (world r1));
            calls := calls r1 ++ [PullsGetDiff (owner prDetails) (repo prDetails)
                                    (pull_number prDetails)] |})
    end.
Proof.
  intros Hd He Ha. rewrite (main_try_after_details r prDetails r1 eventData Hd He).
  apply action_is_true in Ha. rewrite Ha.
  unfold bind, getDiff, perform.
  destruct (pulls_get_diff io _ _ _ (world r1)) as [[diff|e] w]; reflexivity.
Qed.

Lemma main_try_synchronize_diff r prDetails r1 eventData :
  getPRDetails io r = (Normal prDetails, r1) ->
  readEvent io (world r1) = Normal eventData ->
  event_action eventData = Some "synchronize" ->
  main_try io r
  = match fst (repos_compareCommits io (owner prDetails) (repo prDetails)
                 (event_before eventData) (event_after eventData) (world r1)) with
    | Normal diff =>
        reviewDiff io prDetails (Some diff)
          {| world := snd (repos_compareCommits io (owner prDetails) (repo prDetails)
                             (event_before eventData) (event_after eventData) (world r1));
             calls := calls r1 ++ [CompareCommits (owner prDetails) (repo prDetails)
                                     (event_before eventData) (event_after eventData)] |}
    | Throw e =>
        (Throw e,
         {| world := snd (repos_compareCommits io (owner prDetails) (repo prDetails)
                            (event_before eventData) (event_after eventData) (world r1));
            calls := calls r1 ++ [CompareCommits (owner prDetails) (repo prDetails)
                                    (event_before eventData) (event_after eventData)] |})
    end.
Proof.
  intros Hd He Ha. rewrite (main_try_after_details r prDetails r1 eventData Hd He).
  assert (Ho : action_is eventData "opened" = false)
    by (apply action_is_false; rewrite Ha; discriminate).
  apply action_is_true in Ha. rewrite Ho, Ha.
  unfold bind, perform.
  destruct (repos_compareCommits io _ _ _ _ (world r1)) as [[diff|e] w]; reflexivity.
Qed.

Lemma getPRDetails_completes r :
  (forall w, exists event repository,
        readEvent io w = Normal event /\ event_repository event = Some repository) ->
  (forall o n k w, exists data w', pulls_get io o n k w = (Normal data, w')) ->
  exists prDetails r1, getPRDetails io r = (Normal prDetails, r1).
Proof.
  intros Hevent Hget. unfold getPRDetails, bind, observe, perform, throw, ret.
  destruct (Hevent (world r)) as (event & repository & -> & ->).
  destruct (Hget (repository_owner_login repository) (repository_name repository)
              (event_number event) (world r)) as (data & w' & ->).
  eexists _, _. reflexivity.
Qed.

Lemma reviewDiff_completes prDetails diff r :
  (forall prompt w e,
      fst (chat_completions_parse io prompt w) = Throw e -> can_log e = true) ->
  (forall o n k cs ev w, exists w', pulls_createReview io o n k cs ev w = (Normal tt, w')) ->
  exists r', reviewDiff io prDetails diff r = (Normal tt, r').
Proof.
  intros Hlog Hreview. destruct diff as [diff|]; [|eexists; reflexivity].
  destruct (JsString.truthy diff) eqn:Ht.
  - destruct (Answers_total io prDetails
                (workItems (filteredDiff (minimatch io) (excludePatterns (exclude_input io))
                              (parseDiff io diff))) Hlog r) as (answers & r3 & HA).
    rewrite (reviewDiff_run _ _ _ _ _ Ht (analyzeCode_of_Answers io prDetails _ _ _ _ HA)).
    rewrite submitReview_run.
    destruct (contributions _ answers) as [|c rest]; [eexists; reflexivity|].
    destruct (Hreview (owner prDetails) (repo prDetails) (pull_number prDetails)
                (c :: rest) "COMMENT"%string (world r3)) as (w' & ->).
    eexists. reflexivity.
  - unfold reviewDiff. rewrite Ht. eexists. reflexivity.
Qed.

End MainFacts.

(** C8: with a non-empty batch the submitter makes exactly one call, a
    review creation carrying all the comments and the event "COMMENT", and
    its outcome and the world it leaves are those of that call; with an
    empty batch it makes no call and changes nothing; the batch it gets in
    [main] is the whole result of analyzeCode, and when analyzeCode throws
    nothing is submitted. *)
Theorem submitReview_one_batched_call :
  forall (W : Type) (io : Collaborators W) (prDetails : PRDetails)
         (comments : list Comment) (r : Run W),
    (comments <> [] ->
     submitReview io prDetails comments r
     = (fst (pulls_createReview io (owner prDetails) (repo prDetails)
               (pull_number prDetails) comments "COMMENT" (world r)),
        {| world := snd (pulls_createReview io (owner prDetails) (repo prDetails)
                           (pull_number prDetails) comments "COMMENT" (world r));
           calls := calls r ++ [CreateReview (owner prDetails) (repo prDetails)
                                  (pull_number prDetails) comments "COMMENT"] |}))
    /\ (comments = [] -> submitReview io prDetails comments r = (Normal tt, r))
    /\ (forall diff aggregated r1,
           JsString.truthy diff = true ->
           analyzeCode io
             (filteredDiff (minimatch io) (excludePatterns (exclude_input io))
                (parseDiff io diff))
             prDetails r = (Normal aggregated, r1) ->
           reviewDiff io prDetails (Some diff) r
           = submitReview io prDetails aggregated r1)
    /\ (forall diff e r1,
           JsString.truthy diff = true ->
           analyzeCode io
             (filteredDiff (minimatch io) (excludePatterns (exclude_input io))
                (parseDiff io diff))
             prDetails r = (Throw e, r1) ->
           reviewDiff io prDetails (Some diff) r = (Throw e, r1)).
Proof.
  intros W io prDetails comments r. split; [|split; [|split]].
  - intros Hne. rewrite submitReview_run. destruct comments; [congruence|reflexivity].
  - intros ->. reflexivity.
  - intros diff aggregated r1. apply reviewDiff_run.
  - intros diff e r1. apply reviewDiff_throw.
Qed.

Lemma submitReview_one_batched_call_witness :
  submitReview (Scenario.posting "opened" (Normal tt)) Sample.pr
    [ {| body := "avoid mutable state"; path := "a.ts"; line := JsNumber.of_Z 2 |} ]
    Sample.start
  = (Normal tt,
     {| world := 100%nat;
        calls := [CreateReview "kvush" "ai-code-reviewer" 7
                    [ {| body := "avoid mutable state"; path := "a.ts";
                         line := JsNumber.of_Z 2 |} ]
                    "COMMENT"] |})
  /\ submitReview (Scenario.posting "opened" (Throw Scenario.forbidden)) Sample.pr
       [ {| body := "avoid mutable state"; path := "a.ts"; line := JsNumber.of_Z 2 |} ]
       Sample.start
     = (Throw Scenario.forbidden,
        {| world := 100%nat;
           calls := [CreateReview "kvush" "ai-code-reviewer" 7
                       [ {| body := "avoid mutable state"; path := "a.ts";
                            line := JsNumber.of_Z 2 |} ]
                       "COMMENT"] |}).
Proof.
  split.
  - apply (proj1 (submitReview_one_batched_call nat
                    (Scenario.posting "opened" (Normal tt)) Sample.pr
                    [ {| body := "avoid mutable state"; path := "a.ts";
                         line := JsNumber.of_Z 2 |} ] Sample.start)).
    discriminate.
  - apply (proj1 (submitReview_one_batched_call nat
                    (Scenario.posting "opened" (Throw Scenario.forbidden)) Sample.pr
                    [ {| body := "avoid mutable state"; path := "a.ts";
                         line := JsNumber.of_Z 2 |} ] Sample.start)).
    discriminate.
Defined.

(** C9 as stated fails: on the unsupported action "closed", when the
    metadata fetch that [main] makes before it looks at the action throws,
    the run ends with exit code 1. *)
Lemma main_unsupported_action_can_exit_1 :
  event_action (Sample.event "closed") = Some "closed"%string
  /\ main (Scenario.platform "closed" (Throw Scenario.forbidden) (Normal None) (Normal tt)
             [Sample.a_ts] "")
          Sample.start
     = (1%Z, {| world := O; calls := [PullsGet "kvush" "ai-code-reviewer" 7] |}).
Proof. split; reflexivity. Qed.

(** C9, amended: once the pull request details are fetched and the event
    read, an action other than "opened" and "synchronize" ends the run with
    exit code 0 and no further call (no diff fetch, no model call, no
    review); on "opened" the diff that is reviewed is the one fetched for
    the pull request, and on "synchronize" it is the comparison of the
    event's before revision with its after revision; a diff fetch that
    throws ends the run with exit code 1. *)
Theorem main_dispatches_on_action :
  forall (W : Type) (io : Collaborators W) (r : Run W) (prDetails : PRDetails)
         (r1 : Run W) (eventData : EventData),
    getPRDetails io r = (Normal prDetails, r1) ->
    readEvent io (world r1) = Normal eventData ->
    (event_action eventData <> Some "opened" ->
     event_action eventData <> Some "synchronize" ->
     main io r = (0%Z, r1)
     /\ calls r1
        = calls r ++ [PullsGet (owner prDetails) (repo prDetails) (pull_number prDetails)])
    /\ (event_action eventData = Some "opened" ->
        let fetched :=
          pulls_get_diff io (owner prDetails) (repo prDetails) (pull_number prDetails)
            (world r1) in
        let r2 :=
          {| world := snd fetched;
             calls := calls r1 ++ [PullsGetDiff (owner prDetails) (repo prDetails)
                                     (pull_number prDetails)] |} in
        main io r
        = match fst fetched with
          | Normal diff =>
              (exit_code (fst (reviewDiff io prDetails diff r2)),
               snd (reviewDiff io prDetails diff r2))
          | Throw _ => (1%Z, r2)
          end)
    /\ (event_action eventData = Some "synchronize" ->
        let fetched :=
          repos_compareCommits io (owner prDetails) (repo prDetails)
            (event_before eventData) (event_after eventData) (world r1) in
        let r2 :=
          {| world := snd fetched;
             calls := calls r1 ++ [CompareCommits (owner prDetails) (repo prDetails)
                                     (event_before eventData) (event_after eventData)] |} in
        main io r
        = match fst fetched with
          | Normal diff =>
              (exit_code (fst (reviewDiff io prDetails (Some diff) r2)),
               snd (reviewDiff io prDetails (Some diff) r2))
          | Throw _ => (1%Z, r2)
          end).
Proof.
  intros W io r prDetails r1 eventData Hd He. split; [|split].
  - intros Ho Hs. split; [|apply (getPRDetails_calls io _ _ _ Hd)].
    apply action_is_false in Ho, Hs.
    rewrite main_exit, (main_try_after_details io r prDetails r1 eventData Hd He), Ho, Hs.
    reflexivity.
  - intros Ha fetched r2.
    rewrite main_exit, (main_try_opened_diff io _ _ _ _ Hd He Ha).
    fold fetched. fold r2. destruct (fst fetched); reflexivity.
  - intros Ha fetched r2.
    rewrite main_exit, (main_try_synchronize_diff io _ _ _ _ Hd He Ha).
    fold fetched. fold r2. destruct (fst fetched); reflexivity.
Qed.

Lemma main_dispatches_on_action_witness :
  main (Sample.collaborators "closed" (Normal Sample.one_finding)) Sample.start
  = (0%Z, {| world := O; calls := [PullsGet "kvush" "ai-code-reviewer" 7] |})
  /\ main (Scenario.posting "synchronize" (Normal tt)) Sample.start
     = (0%Z,
        {| world := 121%nat;
           calls := [PullsGet "kvush" "ai-code-reviewer" 7;
                     CompareCommits "kvush" "ai-code-reviewer" "1111111" "2222222";
                     ChatParse (createPrompt Sample.a_ts Sample.hunk Scenario.pr);
                     CreateReview "kvush" "ai-code-reviewer" 7
                       [ {| body := "avoid mutable state"; path := "a.ts";
                            line := JsNumber.of_Z 2 |} ]
                       "COMMENT"] |}).
Proof.
  split.
  - apply (proj1 (main_dispatches_on_action nat
                    (Sample.collaborators "closed" (Normal Sample.one_finding))
                    Sample.start Sample.pr
                    {| world := O; calls := [PullsGet "kvush" "ai-code-reviewer" 7] |}
                    (Sample.event "closed") eq_refl eq_refl));
      discriminate.
  - etransitivity.
    + apply (proj2 (proj2 (main_dispatches_on_action nat
                      (Scenario.posting "synchronize" (Normal tt)) Sample.start Scenario.pr
                      {| world := O; calls := [PullsGet "kvush" "ai-code-reviewer" 7] |}
                      (Sample.event "synchronize") eq_refl eq_refl)) eq_refl).
    + reflexivity.
Defined.

(** * Further properties of the program *)

(** ** getPRDetails and the fatal paths of [main] *)

(** X1: getPRDetails makes no platform call when the event payload cannot
    be read or names no repository, and throws; otherwise it makes exactly
    one metadata fetch, for the owner, repository and number of the event,
    and a null title or body of the pull request becomes the empty
    string. *)
Theorem getPRDetails_one_fetch_with_defaults :
  forall (W : Type) (io : Collaborators W) (r : Run W),
    (forall e, readEvent io (world r) = Throw e -> getPRDetails io r = (Throw e, r))
    /\ (forall event,
           readEvent io (world r) = Normal event -> event_repository event = None ->
           exists e, getPRDetails io r = (Throw e, r))
    /\ (forall event repository,
           readEvent io (world r) = Normal event ->
           event_repository event = Some repository ->
           calls (snd (getPRDetails io r))
           = calls r ++ [PullsGet (repository_owner_login repository)
                           (repository_name repository) (event_number event)]
           /\ forall prResponse w,
               pulls_get io (repository_owner_login repository)
                 (repository_name repository) (event_number event) (world r)
               = (Normal prResponse, w) ->
               fst (getPRDetails io r)
               = Normal {| owner := repository_owner_login repository;
                           repo := repository_name repository;
                           pull_number := event_number event;
                           title := match pull_title prResponse with
                                    | Some t => t
                                    | None => EmptyString
                                    end;
                           description := match pull_body prResponse with
                                          | Some b => b
                                          | None => EmptyString
                                          end |}).
Proof.
  intros W io r. unfold getPRDetails, bind, observe, perform, throw, ret.
  split; [|split].
  - intros e ->. reflexivity.
  - intros event -> ->. eexists. reflexivity.
  - intros event repository -> ->.
    destruct (pulls_get io _ _ _ (world r)) as [[prResponse|e] w] eqn:Hget.
    + split; [reflexivity|]. intros prResponse' w' H. injection H as <- _. reflexivity.
    + split; [reflexivity|]. intros prResponse' w' H. discriminate H.
Qed.

Lemma getPRDetails_one_fetch_with_defaults_witness :
  calls (snd (getPRDetails
                (Scenario.platform "opened" Scenario.details (Normal None) (Normal tt) [] "")
                Sample.start))
  = [PullsGet "kvush" "ai-code-reviewer" 7]
  /\ fst (getPRDetails
            (Scenario.platform "opened" Scenario.details (Normal None) (Normal tt) [] "")
            Sample.start)
     = Normal {| owner := "kvush"; repo := "ai-code-reviewer"; pull_number := 7;
                 title := "Add b"; description := "" |}.
Proof.
  pose proof (proj2 (proj2 (getPRDetails_one_fetch_with_defaults nat
                (Scenario.platform "opened" Scenario.details (Normal None) (Normal tt) [] "")
                Sample.start))
                (Sample.event "opened")
                {| repository_owner_login := "kvush"; repository_name := "ai-code-reviewer" |}
                eq_refl eq_refl) as [Hcalls Hval].
  split; [exact Hcalls|].
  exact (Hval {| pull_title := Some "Add b"; pull_body := None |} O eq_refl).
Defined.

(** X2: a failure of the event read, of the metadata fetch or of the diff
    fetch is fatal: [main] exits with code 1 right after the failing call,
    in the world that call left, having asked the model nothing and
    submitted nothing. *)
Theorem main_exits_1_when_a_fetch_fails :
  forall (W : Type) (io : Collaborators W) (r : Run W),
    (forall e, readEvent io (world r) = Throw e -> main io r = (1%Z, r))
    /\ (forall event repository e w,
           readEvent io (world r) = Normal event ->
           event_repository event = Some repository ->
           pulls_get io (repository_owner_login repository) (repository_name repository)
             (event_number event) (world r) = (Throw e, w) ->
           main io r
           = (1%Z, {| world := w;
                      calls := calls r ++ [PullsGet (repository_owner_login repository)
                                             (repository_name repository)
                                             (event_number event)] |}))
    /\ (forall prDetails r1 eventData e w,
           getPRDetails io r = (Normal prDetails, r1) ->
           readEvent io (world r1) = Normal eventData ->
           event_action eventData = Some "opened" ->
           pulls_get_diff io (owner prDetails) (repo prDetails) (pull_number prDetails)
             (world r1) = (Throw e, w) ->
           main io r
           = (1%Z, {| world := w;
                      calls := calls r1 ++ [PullsGetDiff (owner prDetails) (repo prDetails)
                                              (pull_number prDetails)] |}))
    /\ (forall prDetails r1 eventData e w,
           getPRDetails io r = (Normal prDetails, r1) ->
           readEvent io (world r1) = Normal eventData ->
           event_action eventData = Some "synchronize" ->
           repos_compareCommits io (owner prDetails) (repo prDetails)
             (event_before eventData) (event_after eventData) (world r1) = (Throw e, w) ->
           main io r
           = (1%Z, {| world := w;
                      calls := calls r1 ++ [CompareCommits (owner prDetails) (repo prDetails)
                                              (event_before eventData)
                                              (event_after eventData)] |})).
Proof.
  intros W io r. split; [|split; [|split]].
  - intros e He.
    assert (Hd : getPRDetails io r = (Throw e, r)).
    { unfold getPRDetails, bind, observe. now rewrite He. }
    rewrite main_exit, (main_try_details_throw io _ _ _ Hd). reflexivity.
  - intros event repository e w He Hr Hget.
    pose proof (getPRDetails_run io r event repository He Hr) as Hd.
    rewrite Hget in Hd. cbn [fst snd] in Hd.
    rewrite main_exit, (main_try_details_throw io _ _ _ Hd). reflexivity.
  - intros prDetails r1 eventData e w Hd He Ha Hf.
    rewrite main_exit, (main_try_opened_diff io _ _ _ _ Hd He Ha), Hf. reflexivity.
  - intros prDetails r1 eventData e w Hd He Ha Hf.
    rewrite main_exit, (main_try_synchronize_diff io _ _ _ _ Hd He Ha), Hf. reflexivity.
Qed.

Lemma main_exits_1_when_a_fetch_fails_witness :
  main (Scenario.platform "opened" (Throw Scenario.forbidden) (Normal None) (Normal tt)
          [Sample.a_ts] "")
       Sample.start
  = (1%Z, {| world := O; calls := [PullsGet "kvush" "ai-code-reviewer" 7] |})
  /\ main (Scenario.platform "opened" Scenario.details (Throw Scenario.forbidden) (Normal tt)
             [Sample.a_ts] "")
          Sample.start
     = (1%Z, {| world := O; calls := [PullsGet "kvush" "ai-code-reviewer" 7;
                                      PullsGetDiff "kvush" "ai-code-reviewer" 7] |}).
Proof.
  split.
  - apply (proj1 (proj2 (main_exits_1_when_a_fetch_fails nat
             (Scenario.platform "opened" (Throw Scenario.forbidden) (Normal None) (Normal tt)
                [Sample.a_ts] "") Sample.start))
             (Sample.event "opened")
             {| repository_owner_login := "kvush"; repository_name := "ai-code-reviewer" |}
             Scenario.forbidden O eq_refl eq_refl eq_refl).
  - apply (proj1 (proj2 (proj2 (main_exits_1_when_a_fetch_fails nat
             (Scenario.platform "opened" Scenario.details (Throw Scenario.forbidden) (Normal tt)
                [Sample.a_ts] "") Sample.start)))
             Scenario.pr
             {| world := O; calls := [PullsGet "kvush" "ai-code-reviewer" 7] |}
             (Sample.event "opened") Scenario.forbidden O eq_refl eq_refl eq_refl eq_refl).
Defined.

(** X3: when the fetched diff is null or the empty string, [main] stops
    there: exit code 0, no model call and no review. *)
Theorem main_stops_without_diff :
  forall (W : Type) (io : Collaborators W) (r : Run W) (prDetails : PRDetails)
         (r1 : Run W) (eventData : EventData),
    getPRDetails io r = (Normal prDetails, r1) ->
    readEvent io (world r1) = Normal eventData ->
    (forall diff w,
        event_action eventData = Some "opened" ->
        pulls_get_diff io (owner prDetails) (repo prDetails) (pull_number prDetails)
          (world r1) = (Normal diff, w) ->
        diff = None \/ diff = Some EmptyString ->
        main io r
        = (0%Z, {| world := w;
                   calls := calls r1 ++ [PullsGetDiff (owner prDetails) (repo prDetails)
                                           (pull_number prDetails)] |}))
    /\ (forall w,
           event_action eventData = Some "synchronize" ->
           repos_compareCommits io (owner prDetails) (repo prDetails)
             (event_before eventData) (event_after eventData) (world r1)
           = (Normal EmptyString, w) ->
           main io r
           = (0%Z, {| world := w;
                      calls := calls r1 ++ [CompareCommits (owner prDetails) (repo prDetails)
                                              (event_before eventData)
                                              (event_after eventData)] |})).
Proof.
  intros W io r prDetails r1 eventData Hd He. split.
  - intros diff w Ha Hf Hfalsy.
    rewrite main_exit, (main_try_opened_diff io _ _ _ _ Hd He Ha), Hf. cbn [fst snd].
    rewrite reviewDiff_falsy by assumption. reflexivity.
  - intros w Ha Hf.
    rewrite main_exit, (main_try_synchronize_diff io _ _ _ _ Hd He Ha), Hf. cbn [fst snd].
    rewrite reviewDiff_falsy by auto. reflexivity.
Qed.

Lemma main_stops_without_diff_witness :
  main (Scenario.platform "opened" Scenario.details (Normal None) (Normal tt)
          [Sample.a_ts] "")
       Sample.start
  = (0%Z, {| world := O; calls := [PullsGet "kvush" "ai-code-reviewer" 7;
                                   PullsGetDiff "kvush" "ai-code-reviewer" 7] |}).
Proof.
  apply (proj1 (main_stops_without_diff nat
           (Scenario.platform "opened" Scenario.details (Normal None) (Normal tt)
              [Sample.a_ts] "") Sample.start
           {| owner := "kvush"; repo := "ai-code-reviewer"; pull_number := 7;
              title := "Add b"; description := "" |}
           {| world := O; calls := [PullsGet "kvush" "ai-code-reviewer" 7] |}
           (Sample.event "opened") eq_refl eq_refl) None O eq_refl eq_refl).
  left. reflexivity.
Defined.

(** ** Complete runs *)

(** X4: a run on an "opened" event with a non-empty diff.  When analyzeCode
    returns, the calls made are, in this order, the metadata fetch, the
    diff fetch and one model call per chunk of every file that is neither
    excluded nor deleted; with no comment the run ends there with exit code
    0, otherwise one review is created from the comments, and the exit code
    and the world are those its creation gives.  When analyzeCode throws
    (a model error that getAIResponse could not log), the run ends with
    exit code 1 after the model calls made so far, and no review. *)
Theorem main_opened_trace :
  forall (W : Type) (io : Collaborators W) (r : Run W) (prDetails : PRDetails)
         (r1 : Run W) (eventData : EventData) (diff : string) (w2 : W),
    getPRDetails io r = (Normal prDetails, r1) ->
    readEvent io (world r1) = Normal eventData ->
    event_action eventData = Some "opened" ->
    pulls_get_diff io (owner prDetails) (repo prDetails) (pull_number prDetails) (world r1)
    = (Normal (Some diff), w2) ->
    diff <> EmptyString ->
    let reviewed :=
      filteredDiff (minimatch io) (excludePatterns (exclude_input io)) (parseDiff io diff) in
    let r2 :=
      {| world := w2;
         calls := calls r1 ++ [PullsGetDiff (owner prDetails) (repo prDetails)
                                 (pull_number prDetails)] |} in
    (forall comments r3,
        analyzeCode io reviewed prDetails r2 = (Normal comments, r3) ->
        calls r3
        = calls r
          ++ [PullsGet (owner prDetails) (repo prDetails) (pull_number prDetails);
              PullsGetDiff (owner prDetails) (repo prDetails) (pull_number prDetails)]
          ++ map (prompt_call prDetails) (workItems reviewed)
        /\ main io r
           = match comments with
             | [] => (0%Z, r3)
             | _ :: _ =>
                 (exit_code (fst (pulls_createReview io (owner prDetails) (repo prDetails)
                                    (pull_number prDetails) comments "COMMENT" (world r3))),
                  {| world := snd (pulls_createReview io (owner prDetails) (repo prDetails)
                                     (pull_number prDetails) comments "COMMENT" (world r3));
                     calls := calls r3 ++ [CreateReview (owner prDetails) (repo prDetails)
                                             (pull_number prDetails) comments "COMMENT"] |})
             end)
    /\ (forall e r3,
           analyzeCode io reviewed prDetails r2 = (Throw e, r3) ->
           main io r = (1%Z, r3)
           /\ exists sent rest,
               workItems reviewed = sent ++ rest
               /\ calls r3
                  = calls r
                    ++ [PullsGet (owner prDetails) (repo prDetails) (pull_number prDetails);
                        PullsGetDiff (owner prDetails) (repo prDetails)
                          (pull_number prDetails)]
                    ++ map (prompt_call prDetails) sent).
Proof.
  intros W io r prDetails r1 eventData diff w2 Hd He Ha Hf Hne reviewed r2.
  assert (Ht : JsString.truthy diff = true) by (destruct diff; [congruence|reflexivity]).
  assert (Hmain : main_try io r = reviewDiff io prDetails (Some diff) r2).
  { rewrite (main_try_opened_diff io _ _ _ _ Hd He Ha), Hf. reflexivity. }
  assert (Hcalls2 : calls r2
                    = calls r ++ [PullsGet (owner prDetails) (repo prDetails)
                                    (pull_number prDetails);
                                  PullsGetDiff (owner prDetails) (repo prDetails)
                                    (pull_number prDetails)]).
  { unfold r2. cbn [calls]. rewrite (getPRDetails_calls io _ _ _ Hd), <- app_assoc.
    reflexivity. }
  split.
  - intros comments r3 Hrun. split.
    + rewrite (analyzeCode_calls io _ _ _ _ _ Hrun), Hcalls2, <- app_assoc. reflexivity.
    + rewrite main_exit, Hmain, (reviewDiff_run io _ _ _ _ _ Ht Hrun), submitReview_run.
      destruct comments; reflexivity.
  - intros e r3 Hrun. split.
    + rewrite main_exit, Hmain, (reviewDiff_throw io _ _ _ _ _ Ht Hrun). reflexivity.
    + destruct (analyzeCode_sent io prDetails reviewed r2) as (sent & rest & Hw & Hcalls & _).
      rewrite Hrun in Hcalls. cbn [snd] in Hcalls.
      exists sent, rest. split; [assumption|].
      rewrite Hcalls, Hcalls2, <- app_assoc. reflexivity.
Qed.

Lemma main_opened_trace_witness :
  main (Scenario.posting "opened" (Normal tt)) Sample.start
  = (0%Z,
     {| world := 111%nat;
        calls := [PullsGet "kvush" "ai-code-reviewer" 7;
                  PullsGetDiff "kvush" "ai-code-reviewer" 7;
                  ChatParse (createPrompt Sample.a_ts Sample.hunk Scenario.pr);
                  CreateReview "kvush" "ai-code-reviewer" 7
                    [ {| body := "avoid mutable state"; path := "a.ts";
                         line := JsNumber.of_Z 2 |} ]
                    "COMMENT"] |}).
Proof.
  apply (proj2 (proj1 (main_opened_trace nat (Scenario.posting "opened" (Normal tt))
                         Sample.start Scenario.pr
                         {| world := O; calls := [PullsGet "kvush" "ai-code-reviewer" 7] |}
                         (Sample.event "opened") "diff --git" 10%nat
                         eq_refl eq_refl eq_refl eq_refl ltac:(discriminate))
                  [ {| body := "avoid mutable state"; path := "a.ts";
                       line := JsNumber.of_Z 2 |} ]
                  {| world := 11%nat;
                     calls := [PullsGet "kvush" "ai-code-reviewer" 7;
                               PullsGetDiff "kvush" "ai-code-reviewer" 7;
                               ChatParse (createPrompt Sample.a_ts Sample.hunk Scenario.pr)] |}
                  eq_refl)).
Defined.

(** X5: failures of the model that getAIResponse can log never fail the
    run: if the event is readable, the platform calls (metadata fetch, diff
    fetches, review creation) do not throw and every error the model client
    throws has a readable constructor name and a response that is absent or
    can be serialised, [main] exits with code 0. *)
Theorem main_exits_0_when_model_errors_are_logged :
  forall (W : Type) (io : Collaborators W),
    (forall w, exists event repository,
          readEvent io w = Normal event /\ event_repository event = Some repository) ->
    (forall o n k w, exists data w', pulls_get io o n k w = (Normal data, w')) ->
    (forall o n k w, exists diff w', pulls_get_diff io o n k w = (Normal diff, w')) ->
    (forall o n b h w, exists diff w', repos_compareCommits io o n b h w = (Normal diff, w')) ->
    (forall o n k cs ev w, exists w', pulls_createReview io o n k cs ev w = (Normal tt, w')) ->
    (forall prompt w e,
        fst (chat_completions_parse io prompt w) = Throw e -> can_log e = true) ->
    forall r : Run W, fst (main io r) = 0%Z.
Proof.
  intros W io Hevent Hget Hdiff Hcmp Hreview Hlog r.
  destruct (getPRDetails_completes io r Hevent Hget) as (prDetails & r1 & Hd).
  destruct (Hevent (world r1)) as (eventData & _ & He & _).
  rewrite main_exit. cbn [fst].
  rewrite (main_try_after_details io r prDetails r1 eventData Hd He).
  destruct (action_is eventData "opened").
  - unfold bind, getDiff, perform.
    destruct (Hdiff (owner prDetails) (repo prDetails) (pull_number prDetails) (world r1))
      as (diff & w' & ->).
    match goal with
    | |- context [reviewDiff io prDetails diff ?s] =>
        destruct (reviewDiff_completes io prDetails diff s Hlog Hreview) as (r' & ->)
    end.
    reflexivity.
  - destruct (action_is eventData "synchronize"); [|reflexivity].
    unfold bind, perform.
    destruct (Hcmp (owner prDetails) (repo prDetails) (event_before eventData)
                (event_after eventData) (world r1)) as (diff & w' & ->).
    match goal with
    | |- context [reviewDiff io prDetails (Some diff) ?s] =>
        destruct (reviewDiff_completes io prDetails (Some diff) s Hlog Hreview) as (r' & ->)
    end.
    reflexivity.
Qed.

Lemma main_exits_0_when_model_errors_are_logged_witness :
  fst (main (Scenario.platform "synchronize" Scenario.details (Normal (Some "diff --git"))
               (Normal tt) [Sample.a_ts] "")
            Sample.start) = 0%Z.
Proof.
  apply (main_exits_0_when_model_errors_are_logged nat
           (Scenario.platform "synchronize" Scenario.details (Normal (Some "diff --git"))
              (Normal tt) [Sample.a_ts] "")).
  - intros w. eexists _, _. split; reflexivity.
  - intros o n k w. eexists _, _. reflexivity.
  - intros o n k w. eexists _, _. reflexivity.
  - intros o n b h w. eexists _, _. reflexivity.
  - intros o n k cs ev w. eexists. reflexivity.
  - intros prompt [|w] e H; cbn in H; [|discriminate H].
    injection H as <-. reflexivity.
Defined.

(** ** More on analyzeCode *)

(** X6: analysing a diff made of two parts is analysing the first part and
    then, from the state it leaves, the second: the comments are those of
    the first followed by those of the second. *)
Theorem analyzeCode_app :
  forall (W : Type) (io : Collaborators W) (prDetails : PRDetails)
         (files1 files2 : list File) (r r1 r2 : Run W) (comments1 comments2 : list Comment),
    analyzeCode io files1 prDetails r = (Normal comments1, r1) ->
    analyzeCode io files2 prDetails r1 = (Normal comments2, r2) ->
    analyzeCode io (files1 ++ files2) prDetails r = (Normal (comments1 ++ comments2), r2).
Proof.
  intros W io prDetails files1 files2 r r1 r2 comments1 comments2 H1 H2.
  destruct (analyzeCode_answers io prDetails _ _ _ _ H1) as (a1 & HA1 & ->).
  destruct (analyzeCode_answers io prDetails _ _ _ _ H2) as (a2 & HA2 & ->).
  pose proof (Answers_app io prDetails _ _ _ _ _ _ _ HA1 HA2) as HA.
  rewrite <- workItems_app in HA.
  rewrite (analyzeCode_of_Answers io prDetails _ _ _ _ HA), workItems_app.
  rewrite contributions_app by (eapply Answers_length; eassumption).
  reflexivity.
Qed.

Lemma analyzeCode_app_witness :
  analyzeCode (Sample.collaborators "opened" (Throw Sample.timeout))
    ([Sample.a_ts] ++ [Sample.readme]) Sample.pr Sample.start
  = (Normal ([] ++ [ {| body := "avoid mutable state"; path := "README.md";
                        line := JsNumber.of_Z 2 |} ]),
     {| world := 2%nat;
        calls := [ChatParse (createPrompt Sample.a_ts Sample.hunk Sample.pr);
                  ChatParse (createPrompt Sample.readme Sample.hunk Sample.pr)] |}).
Proof.
  apply (analyzeCode_app nat (Sample.collaborators "opened" (Throw Sample.timeout)) Sample.pr
           [Sample.a_ts] [Sample.readme] Sample.start
           {| world := 1%nat;
              calls := [ChatParse (createPrompt Sample.a_ts Sample.hunk Sample.pr)] |}).
  - reflexivity.
  - reflexivity.
Defined.

(** X7: every comment that analyzeCode returns comes from a finding that
    the model gave for a chunk of a file of the diff: its path is the
    target path of that file, which is not empty and not "/dev/null"; the
    finding is in the answer that getAIResponse returned for the prompt of
    that chunk, in the state left by the chunks before it; and the
    comment's body and line are the finding's reviewComment and the number
    of its lineNumber. *)
Theorem analyzeCode_comments_come_from_findings :
  forall (W : Type) (io : Collaborators W) (prDetails : PRDetails)
         (parsedDiff : list File) (r r' : Run W) (comments : list Comment),
    analyzeCode io parsedDiff prDetails r = (Normal comments, r') ->
    forall comment,
      In comment comments ->
      exists file chunk aiResponse finding before after answers r0 r0',
        In file parsedDiff
        /\ In chunk (chunks file)
        /\ to file = Some (path comment)
        /\ path comment <> EmptyString
        /\ path comment <> "/dev/null"%string
        /\ workItems parsedDiff = before ++ (file, chunk) :: after
        /\ Answers io prDetails r before answers r0
        /\ getAIResponse io (createPrompt file chunk prDetails) r0
           = (Normal (Some aiResponse), r0')
        /\ In finding aiResponse
        /\ body comment = reviewComment finding
        /\ line comment = JsNumber.Number (lineNumber finding).
Proof.
  intros W io prDetails parsedDiff r r' comments Hrun comment Hin.
  destruct (analyzeCode_answers io prDetails _ _ _ _ Hrun) as (answers & HA & ->).
  apply contributions_origin in Hin as ([file chunk] & aiResponse & Hitem & Hc).
  cbn [fst snd] in Hc.
  destruct (Answers_In io prDetails _ _ _ _ HA _ _ Hitem)
    as (before & after & answers1 & r0 & r0' & Hsplit & HB & Hget).
  cbn [fst snd] in Hget.
  assert (Hwork : In (file, chunk) (workItems parsedDiff))
    by (rewrite Hsplit; apply in_elt).
  apply workItems_In in Hwork as (Hfile & Hdel & Hchunk).
  destruct (createComment_path _ _ _ _ Hc) as [Hto Hne].
  rewrite (createComment_with_path _ _ _ _ Hto Hne) in Hc.
  apply in_map_iff in Hc as (finding & Hrecord & Hfinding).
  exists file, chunk, aiResponse, finding, before, after, answers1, r0, r0'.
  repeat split; try assumption.
  - intros Hpath. unfold is_dev_null in Hdel. rewrite Hto, Hpath in Hdel. discriminate.
  - rewrite <- Hrecord. reflexivity.
  - rewrite <- Hrecord. reflexivity.
Qed.

Lemma analyzeCode_comments_come_from_findings_witness :
  exists file chunk aiResponse finding before after answers r0 r0',
    In file [Sample.a_ts; Sample.readme]
    /\ In chunk (chunks file)
    /\ to file = Some "README.md"%string
    /\ "README.md"%string <> EmptyString
    /\ "README.md"%string <> "/dev/null"%string
    /\ workItems [Sample.a_ts; Sample.readme] = before ++ (file, chunk) :: after
    /\ Answers (Sample.collaborators "opened" (Throw Sample.timeout)) Sample.pr
         Sample.start before answers r0
    /\ getAIResponse (Sample.collaborators "opened" (Throw Sample.timeout))
         (createPrompt file chunk Sample.pr) r0
       = (Normal (Some aiResponse), r0')
    /\ In finding aiResponse
    /\ "avoid mutable state"%string = reviewComment finding
    /\ JsNumber.of_Z 2 = JsNumber.Number (lineNumber finding).
Proof.
  apply (analyzeCode_comments_come_from_findings nat
           (Sample.collaborators "opened" (Throw Sample.timeout)) Sample.pr
           [Sample.a_ts; Sample.readme] Sample.start
           {| world := 2%nat;
              calls := [ChatParse (createPrompt Sample.a_ts Sample.hunk Sample.pr);
                        ChatParse (createPrompt Sample.readme Sample.hunk Sample.pr)] |}
           [ {| body := "avoid mutable state"; path := "README.md";
                line := JsNumber.of_Z 2 |} ]
           eq_refl
           {| body := "avoid mutable state"; path := "README.md"; line := JsNumber.of_Z 2 |}).
  left. reflexivity.
Defined.

(** X8: when every file of the diff is excluded by a pattern, is a deletion
    or has no chunk, the review of the diff does nothing: no model call, no
    review creation, normal completion. *)
Theorem reviewDiff_nothing_to_review :
  forall (W : Type) (io : Collaborators W) (prDetails : PRDetails) (diff : string)
         (r : Run W),
    (forall file,
        In file (parseDiff io diff) ->
        (exists pattern, In pattern (excludePatterns (exclude_input io))
                         /\ minimatch io (to_or_empty file) pattern = true)
        \/ to file = Some "/dev/null"
        \/ chunks file = []) ->
    reviewDiff io prDetails (Some diff) r = (Normal tt, r).
Proof.
  intros W io prDetails diff r Hall.
  destruct (JsString.truthy diff) eqn:Ht; [|unfold reviewDiff; now rewrite Ht].
  rewrite (reviewDiff_run io prDetails diff r [] r Ht); [reflexivity|].
  apply analyzeCode_no_work.
  apply no_items_nil. intros [file chunk] Hin.
  apply workItems_In in Hin as (Hfile & Hdel & Hchunk).
  apply filteredDiff_In in Hfile as [Hfile Hnone].
  destruct (Hall file Hfile) as [(pattern & Hp & Hm)|[Hto|Hno]].
  - rewrite (Hnone pattern Hp) in Hm. discriminate.
  - unfold is_dev_null in Hdel. rewrite Hto in Hdel. discriminate.
  - rewrite Hno in Hchunk. destruct Hchunk.
Qed.

Lemma reviewDiff_nothing_to_review_witness :
  reviewDiff
    (Scenario.platform "opened" Scenario.details (Normal (Some "diff --git")) (Normal tt)
       [Sample.readme; Sample.deleted] "dist/*, *.md")
    Scenario.pr (Some "diff --git") Sample.start
  = (Normal tt, Sample.start).
Proof.
  apply (reviewDiff_nothing_to_review nat
           (Scenario.platform "opened" Scenario.details (Normal (Some "diff --git")) (Normal tt)
              [Sample.readme; Sample.deleted] "dist/*, *.md")).
  intros file [<-|[<-|[]]].
  - left. exists "*.md". split; [right; left; reflexivity|reflexivity].
  - right. left. reflexivity.
Defined.

(** X9: getAIResponse makes exactly one call to the model, with the prompt
    it was given, whether the call succeeds or throws, and leaves the world
    as that call left it: nothing is retried. *)
Theorem getAIResponse_one_attempt :
  forall (W : Type) (io : Collaborators W) (prompt : string) (r : Run W),
    calls (snd (getAIResponse io prompt r)) = calls r ++ [ChatParse prompt]
    /\ world (snd (getAIResponse io prompt r))
       = snd (chat_completions_parse io prompt (world r)).
Proof.
  intros W io prompt r. rewrite getAIResponse_state. split; reflexivity.
Qed.

(** ** The exclusion patterns *)

Module JsStringFacts.
Import JsString.

Local Open Scope string_scope.

Lemma append_empty_r s : s ++ "" = s.
Proof. induction s as [|c r IH]; cbn; [reflexivity|now rewrite IH]. Qed.

Lemma append_assoc s1 s2 s3 : (s1 ++ s2) ++ s3 = s1 ++ (s2 ++ s3).
Proof. induction s1 as [|c r IH]; cbn; [reflexivity|now rewrite IH]. Qed.

Lemma trimStart_starts_clean s : starts_clean (trimStart s).
Proof.
  induction s as [|c r IH]; cbn; [exact I|].
  destruct (is_white_space c) eqn:Hc; [exact IH|exact Hc].
Qed.

Lemma trimStart_clean s : starts_clean s -> trimStart s = s.
Proof. destruct s as [|c r]; cbn; [reflexivity|]. now intros ->. Qed.

Lemma trimEnd_starts_clean s : starts_clean s -> starts_clean (trimEnd s).
Proof.
  destruct s as [|c r]; cbn; [exact id|]. intros Hc.
  destruct (trimEnd r); [rewrite Hc|]; exact Hc.
Qed.

Lemma trimEnd_idempotent s : trimEnd (trimEnd s) = trimEnd s.
Proof.
  induction s as [|c r IH]; [reflexivity|]. cbn [trimEnd].
  destruct (trimEnd r) as [|c' r'] eqn:Hr.
  - destruct (is_white_space c) eqn:Hc; [reflexivity|]. cbn. now rewrite Hc.
  - cbn [trimEnd] in *. now rewrite IH.
Qed.

Lemma trim_idempotent s : trim (trim s) = trim s.
Proof.
  unfold trim.
  rewrite (trimStart_clean (trimEnd (trimStart s)))
    by apply trimEnd_starts_clean, trimStart_starts_clean.
  apply trimEnd_idempotent.
Qed.

Lemma count_char_append c s1 s2 :
  count_char c (s1 ++ s2) = (count_char c s1 + count_char c s2)%nat.
Proof. induction s1 as [|c' r IH]; cbn; [reflexivity|]. rewrite IH. lia. Qed.

Lemma count_char_trimStart c s : (count_char c (trimStart s) <= count_char c s)%nat.
Proof.
  induction s as [|c' r IH]; cbn; [lia|].
  destruct (is_white_space c'); cbn; lia.
Qed.

Lemma count_char_trimEnd c s : (count_char c (trimEnd s) <= count_char c s)%nat.
Proof.
  induction s as [|c' r IH]; cbn; [lia|].
  destruct (trimEnd r) as [|c'' r'']; [destruct (is_white_space c')|]; cbn in *; lia.
Qed.

Lemma count_char_trim c s : (count_char c (trim s) <= count_char c s)%nat.
Proof.
  unfold trim. pose proof (count_char_trimEnd c (trimStart s)).
  pose proof (count_char_trimStart c s). lia.
Qed.

Lemma split_from_length sep s : forall piece,
  List.length (split_from sep piece s) = S (count_char sep s).
Proof.
  induction s as [|c r IH]; intros piece; cbn; [reflexivity|].
  destruct (Ascii.eqb c sep); cbn; now rewrite IH.
Qed.

Lemma split_from_pieces sep s : forall piece,
  count_char sep piece = O ->
  Forall (fun p => count_char sep p = O) (split_from sep piece s).
Proof.
  induction s as [|c r IH]; intros piece Hp; cbn.
  - constructor; [assumption|constructor].
  - destruct (Ascii.eqb c sep) eqn:Hc.
    + constructor; [assumption|]. apply IH. reflexivity.
    + apply IH. rewrite count_char_append. cbn. rewrite Hc, Hp. reflexivity.
Qed.

Lemma split_from_join sep s : forall piece,
  String.concat (String sep "") (split_from sep piece s) = piece ++ s.
Proof.
  induction s as [|c r IH]; intros piece; cbn [split_from].
  - cbn. now rewrite append_empty_r.
  - destruct (Ascii.eqb_spec c sep) as [->|Hne].
    + pose proof (IH "") as Hrest. pose proof (split_from_length sep r "") as Hlen.
      destruct (split_from sep "" r) as [|p ps]; [discriminate|].
      change (String.concat (String sep "") (piece :: p :: ps))
        with (piece ++ String sep "" ++ String.concat (String sep "") (p :: ps)).
      rewrite Hrest. reflexivity.
    + rewrite IH, append_assoc. reflexivity.
Qed.

Lemma trim_without_white_space s :
  (forall c, is_white_space c = true -> count_char c s = O) -> trim s = s.
Proof.
  intros H. unfold trim.
  assert (Hstart : starts_clean s).
  { destruct s as [|c r]; cbn; [exact I|].
    destruct (is_white_space c) eqn:Hc; [|reflexivity].
    specialize (H c Hc). cbn in H. rewrite Ascii.eqb_refl in H. discriminate. }
  rewrite (trimStart_clean s Hstart).
  clear Hstart. induction s as [|c r IH]; [reflexivity|].
  assert (Hc : is_white_space c = false).
  { destruct (is_white_space c) eqn:Hc; [|reflexivity].
    specialize (H c Hc). cbn in H. rewrite Ascii.eqb_refl in H. discriminate. }
  cbn [trimEnd]. rewrite IH.
  - rewrite Hc. destruct r; reflexivity.
  - intros c' Hc'. specialize (H c' Hc'). cbn in H. lia.
Qed.

End JsStringFacts.

(** X10: the exclusion patterns are the comma-separated pieces of the
    input, trimmed: there is one more pattern than there are commas (so at
    least one, also for an empty input), no pattern contains a comma, and
    trimming a pattern again changes nothing. *)
Theorem excludePatterns_shape :
  forall exclude : string,
    List.length (excludePatterns exclude) = S (count_char "," exclude)
    /\ Forall (fun pattern => count_char "," pattern = O
                              /\ JsString.trim pattern = pattern)
              (excludePatterns exclude).
Proof.
  intros exclude. unfold excludePatterns, JsString.split. split.
  - rewrite length_map. apply JsStringFacts.split_from_length.
  - apply Forall_forall. intros pattern Hin.
    apply in_map_iff in Hin as (piece & <- & Hpiece).
    split; [|apply JsStringFacts.trim_idempotent].
    pose proof (JsStringFacts.split_from_pieces "," exclude EmptyString eq_refl) as Hall.
    rewrite Forall_forall in Hall. specialize (Hall piece Hpiece).
    pose proof (JsStringFacts.count_char_trim "," piece). lia.
Qed.

(** X11: when the input holds no white space, joining the exclusion
    patterns with commas gives the input back: no piece is lost, merged or
    altered. *)
Theorem excludePatterns_join :
  forall exclude : string,
    (forall c, JsString.is_white_space c = true -> count_char c exclude = O) ->
    String.concat "," (excludePatterns exclude) = exclude.
Proof.
  intros exclude Hclean. unfold excludePatterns, JsString.split.
  rewrite <- (JsStringFacts.split_from_join "," exclude EmptyString) at 2.
  f_equal. rewrite <- (map_id (JsString.split_from "," EmptyString exclude)) at 2.
  apply map_ext_in. intros piece Hpiece.
  apply JsStringFacts.trim_without_white_space. intros c Hc.
  assert (Hle : (count_char c piece <= count_char c exclude)%nat).
  { clear Hclean Hc. revert piece Hpiece.
    assert (Hgen : forall s acc piece,
               In piece (JsString.split_from "," acc s) ->
               (count_char c piece <= count_char c acc + count_char c s)%nat).
    { induction s as [|c' r IH]; intros acc piece Hin; cbn [JsString.split_from] in Hin.
      - destruct Hin as [<-|[]]. lia.
      - destruct (Ascii.eqb c' ",").
        + destruct Hin as [<-|Hin]; [lia|].
          specialize (IH _ _ Hin). cbn in *. lia.
        + specialize (IH _ _ Hin). rewrite JsStringFacts.count_char_append in IH.
          cbn in *. lia. }
    intros piece Hin. specialize (Hgen _ _ _ Hin). cbn in Hgen. lia. }
  specialize (Hclean c Hc). lia.
Qed.

Lemma excludePatterns_join_witness :
  String.concat "," (excludePatterns "*.md,dist/*,,src/a.ts") = "*.md,dist/*,,src/a.ts".
Proof.
  apply excludePatterns_join.
  intros c Hc. destruct c as [[] [] [] [] [] [] [] []]; vm_compute in Hc;
    try discriminate Hc; reflexivity.
Defined.

(** X12: filtering by two pattern lists together is filtering by one and
    then by the other, in either order; filtering twice by the same list
    changes nothing more; and the filter never adds or reorders entries. *)
Theorem filteredDiff_composes :
  forall (minimatch : string -> string -> bool) (patterns1 patterns2 : list string)
         (parsedDiff : list File),
    filteredDiff minimatch (patterns1 ++ patterns2) parsedDiff
    = filteredDiff minimatch patterns1 (filteredDiff minimatch patterns2 parsedDiff)
    /\ filteredDiff minimatch (patterns1 ++ patterns2) parsedDiff
       = filteredDiff minimatch (patterns2 ++ patterns1) parsedDiff
    /\ filteredDiff minimatch patterns1 (filteredDiff minimatch patterns1 parsedDiff)
       = filteredDiff minimatch patterns1 parsedDiff
    /\ (List.length (filteredDiff minimatch patterns1 parsedDiff) <= List.length parsedDiff)%nat.
Proof.
  intros minimatch patterns1 patterns2 parsedDiff. unfold filteredDiff.
  repeat split.
  - induction parsedDiff as [|file rest IH]; [reflexivity|].
    cbn [filter]. rewrite existsb_app.
    destruct (existsb _ patterns1) eqn:H1, (existsb _ patterns2) eqn:H2;
      cbn [negb orb filter]; rewrite ?H1, ?IH; reflexivity.
  - induction parsedDiff as [|file rest IH]; [reflexivity|].
    cbn [filter]. rewrite !existsb_app, orb_comm, IH. reflexivity.
  - induction parsedDiff as [|file rest IH]; [reflexivity|].
    cbn [filter]. destruct (existsb _ patterns1) eqn:H1; cbn [negb filter];
      rewrite ?H1, ?IH; reflexivity.
  - apply filter_length_le.
Qed.

(** ** Line numbers shown and line numbers read back *)

Module LineNumberFacts.

Lemma digit_char_decimal d :
  (0 <= d <= 9)%Z ->
  is_decimal_digit (JsString.digit_char d) = true
  /\ (JsString.code (JsString.digit_char d) - 48 = d)%Z.
Proof.
  intros Hd.
  assert (H : (d = 0 \/ d = 1 \/ d = 2 \/ d = 3 \/ d = 4 \/ d = 5 \/ d = 6 \/ d = 7
               \/ d = 8 \/ d = 9)%Z) by lia.
  repeat (destruct H as [->|H]; [split; reflexivity|]). subst d. split; reflexivity.
Qed.

Lemma decimal_digits_written fuel : forall n acc,
  (0 <= n < 10 ^ Z.of_nat (S fuel))%Z ->
  all_decimal_digits acc = true ->
  all_decimal_digits (JsString.decimal_digits (S fuel) n acc) = true
  /\ JsString.decimal_digits (S fuel) n acc <> EmptyString
  /\ decimal_value_from 0 (JsString.decimal_digits (S fuel) n acc)
     = decimal_value_from n acc.
Proof.
  induction fuel as [|fuel IH]; intros n acc Hn Hacc.
  - assert (Hlt : (n <? 10)%Z = true) by (apply Z.ltb_lt; cbn in Hn; lia).
    cbn [JsString.decimal_digits]. rewrite Hlt.
    destruct (digit_char_decimal (n mod 10)) as [Hd Hc];
      [pose proof (Z.mod_pos_bound n 10 ltac:(lia)); lia|].
    rewrite Z.mod_small in * by (cbn in Hn; lia).
    repeat split.
    + cbn [all_decimal_digits]. now rewrite Hd, Hacc.
    + discriminate.
    + cbn [decimal_value_from]. rewrite Hc. reflexivity.
  - remember (S fuel) as fuel1 eqn:Hfuel.
    cbn [JsString.decimal_digits].
    destruct (digit_char_decimal (n mod 10)) as [Hd Hc];
      [pose proof (Z.mod_pos_bound n 10 ltac:(lia)); lia|].
    destruct (n <? 10)%Z eqn:Hlt.
    + apply Z.ltb_lt in Hlt. rewrite Z.mod_small in * by lia.
      repeat split.
      * cbn [all_decimal_digits]. now rewrite Hd, Hacc.
      * discriminate.
      * cbn [decimal_value_from]. rewrite Hc. reflexivity.
    + apply Z.ltb_ge in Hlt. subst fuel1.
      assert (Hdiv : (0 <= n / 10 < 10 ^ Z.of_nat (S fuel))%Z).
      { split; [apply Z.div_pos; lia|].
        apply Z.div_lt_upper_bound; [lia|].
        rewrite (Nat2Z.inj_succ (S fuel)), Z.pow_succ_r in Hn by lia. lia. }
      destruct (IH (n / 10)%Z (String (JsString.digit_char (n mod 10)) acc) Hdiv)
        as (Hall & Hne & Hval).
      { cbn [all_decimal_digits]. now rewrite Hd, Hacc. }
      repeat split; try assumption.
      rewrite Hval. cbn [decimal_value_from]. rewrite Hc. f_equal.
      pose proof (Z.div_mod n 10 ltac:(lia)). lia.
Qed.

Lemma of_integer_written n :
  (0 <= n)%Z ->
  all_decimal_digits (JsString.of_integer n) = true
  /\ JsString.of_integer n <> EmptyString
  /\ decimal_value (JsString.of_integer n) = n.
Proof.
  intros Hn. unfold JsString.of_integer.
  replace (n <? 0)%Z with false by (symmetry; apply Z.ltb_ge; lia).
  replace (Z.to_nat (Z.log2 n) + 1)%nat with (S (Z.to_nat (Z.log2 n))) by lia.
  apply decimal_digits_written; [|reflexivity].
  split; [assumption|].
  rewrite Nat2Z.inj_succ, Z2Nat.id by apply Z.log2_nonneg.
  destruct (Z.eq_dec n 0) as [->|Hnz]; [reflexivity|].
  pose proof (Z.log2_spec n ltac:(lia)) as [_ Hlt].
  assert (2 ^ Z.succ (Z.log2 n) <= 10 ^ Z.succ (Z.log2 n))%Z.
  { apply Z.pow_le_mono_l. lia. }
  lia.
Qed.

Lemma Number_of_integer n :
  (0 <= n < 2 ^ 53)%Z ->
  JsNumber.to_Z (JsNumber.Number (JsString.of_integer n)) = Some n.
Proof.
  intros [Hn Hlt]. destruct (of_integer_written n Hn) as (Hall & Hne & Hval).
  rewrite (JsNumberFacts.Number_digits _ Hall Hne), Hval.
  apply JsNumberFacts.to_Z_of_Z. lia.
Qed.

End LineNumberFacts.

(** X13: a finding whose lineNumber is the prefix that createPrompt printed
    in front of a change gets a comment on exactly that line: the number
    shown to the model and the number read back agree (for line numbers
    from 0 to 2^53 - 1, which JavaScript numbers hold exactly). *)
Theorem createComment_reads_back_prompt_line :
  forall (file : File) (chunk : Chunk) (c : Change) (n : Z) (file_to : string)
         (finding : Finding),
    to file = Some file_to -> file_to <> EmptyString ->
    resolved_line c = Some n -> (0 <= n < 2 ^ 53)%Z ->
    lineNumber finding = interpolate_number (resolved_line c) ->
    map (fun record => (path record, JsNumber.to_Z (line record)))
        (createComment file chunk [finding])
    = [(file_to, Some n)].
Proof.
  intros file chunk c n file_to finding Hto Hne Hres Hn Hline.
  rewrite (createComment_with_path _ _ _ _ Hto Hne). cbn [map path line].
  rewrite Hline, Hres. cbn [interpolate_number].
  now rewrite LineNumberFacts.Number_of_integer.
Qed.

Lemma createComment_reads_back_prompt_line_witness :
  map (fun record => (path record, JsNumber.to_Z (line record)))
      (createComment Sample.a_ts Sample.hunk
         [ {| lineNumber := "120"; reviewComment := "rename" |} ])
  = [("a.ts", Some 120%Z)].
Proof.
  apply (createComment_reads_back_prompt_line Sample.a_ts Sample.hunk
           (AddChange 120 "+x") 120 "a.ts"
           {| lineNumber := "120"; reviewComment := "rename" |}
           eq_refl ltac:(discriminate) eq_refl ltac:(split; [lia|reflexivity]) eq_refl).
Defined.

(** X14: the prefix of a change line is the text "undefined" exactly when
    the change is an added or a deleted line numbered 0 (the number 0 is
    falsy and such a change has no [ln2]); a context line always shows its
    new-file number. *)
Theorem render_change_undefined_prefix :
  forall c : Change,
    (resolved_line c = None
     <-> exists text, c = AddChange 0 text \/ c = DeleteChange 0 text)
    /\ (resolved_line c = None ->
        render_change c = ("undefined " ++ change_content c)%string)
    /\ (forall ln1 ln2 text,
           c = NormalChange ln1 ln2 text ->
           render_change c = (JsString.of_integer ln2 ++ " " ++ text)%string).
Proof.
  intros c. split; [|split].
  - destruct c as [ln s|ln s|ln1 ln2 s]; cbn.
    + destruct (Z.eqb_spec ln 0) as [->|Hne]; split; try discriminate; eauto.
      intros (text & [H|H]); try discriminate H. injection H as H _. congruence.
    + destruct (Z.eqb_spec ln 0) as [->|Hne]; split; try discriminate; eauto.
      intros (text & [H|H]); try discriminate H. injection H as H _. congruence.
    + split; [discriminate|]. intros (text & [H|H]); discriminate H.
  - intros H. unfold render_change. rewrite H. reflexivity.
  - intros ln1 ln2 text ->. reflexivity.
Qed.

Lemma render_change_undefined_prefix_witness :
  render_change (AddChange 0 "+first") = "undefined +first"%string.
Proof.
  apply (proj1 (proj2 (render_change_undefined_prefix (AddChange 0 "+first")))).
  reflexivity.
Defined.

(** ** The lines of the prompt *)

Module PromptFacts.

Local Open Scope string_scope.

Lemma joined_line (lines : list string) : forall line,
  In line lines ->
  exists before after,
    nl ++ String.concat nl lines ++ nl = before ++ nl ++ line ++ nl ++ after.
Proof.
  induction lines as [|first rest IH]; intros line Hin; [destruct Hin|].
  destruct rest as [|second rest].
  - destruct Hin as [<-|[]]. exists "", "". cbn [String.concat].
    now rewrite JsStringFacts.append_empty_r.
  - change (String.concat nl (first :: second :: rest))
      with (first ++ nl ++ String.concat nl (second :: rest)).
    destruct Hin as [<-|Hin].
    + exists "", (String.concat nl (second :: rest) ++ nl).
      rewrite !JsStringFacts.append_assoc. reflexivity.
    + destruct (IH line Hin) as (before & after & Heq).
      exists (nl ++ first ++ before), after.
      rewrite !JsStringFacts.append_assoc. now rewrite Heq.
Qed.

End PromptFacts.

(** X15: every change of the chunk is in the prompt on a line of its own,
    as its resolved line number, a space and its content; and a chunk
    without changes still gives a prompt, with the hunk header and an empty
    diff body. *)
Theorem createPrompt_shows_every_change :
  forall (file : File) (chunk : Chunk) (prDetails : PRDetails),
    (forall c,
        In c (changes chunk) ->
        exists before after,
          createPrompt file chunk prDetails
          = (before ++ nl ++ interpolate_number (resolved_line c) ++ " "
               ++ change_content c ++ nl ++ after)%string)
    /\ (changes chunk = [] ->
        createPrompt file chunk prDetails
        = (prompt_preamble file prDetails ++ content chunk ++ nl ++ nl ++ fence ++ nl)%string).
Proof.
  intros file chunk prDetails. split.
  - intros c Hc.
    destruct (PromptFacts.joined_line (map render_change (changes chunk)) (render_change c)
                (in_map render_change _ _ Hc)) as (before & after & Heq).
    exists (prompt_preamble file prDetails ++ content chunk ++ before)%string,
           (after ++ fence ++ nl)%string.
    unfold createPrompt.
    assert (Hassoc : forall body rest : string,
               (nl ++ body ++ nl ++ rest = (nl ++ body ++ nl) ++ rest)%string)
      by (intros body rest; now rewrite !JsStringFacts.append_assoc).
    rewrite Hassoc, Heq. unfold render_change.
    rewrite ?JsStringFacts.append_assoc. reflexivity.
  - intros Hnone. unfold createPrompt. rewrite Hnone. reflexivity.
Qed.

Lemma createPrompt_shows_every_change_witness :
  exists before after,
    createPrompt Sample.a_ts Sample.hunk Sample.pr
    = (before ++ nl ++ "2 +let b = 2;" ++ nl ++ after)%string.
Proof.
  apply (proj1 (createPrompt_shows_every_change Sample.a_ts Sample.hunk Sample.pr)
           (AddChange 2 "+let b = 2;")).
  right. left. reflexivity.
Defined.

(** X16: createComment looks only at the target path of the file and at the
    findings: the chunk plays no part (a line number is not checked against
    the chunk's range), nor do the other fields of the file; and the
    records of a concatenation of findings are the records of its parts, in
    order. *)
Theorem createComment_ignores_chunk :
  forall (file file' : File) (chunk chunk' : Chunk) (findings findings' : list Finding),
    to file = to file' ->
    createComment file chunk (findings ++ findings')
    = createComment file' chunk' findings ++ createComment file' chunk' findings'.
Proof.
  intros file file' chunk chunk' findings findings' Hto.
  unfold createComment. rewrite Hto. apply flat_map_app.
Qed.

Lemma createComment_ignores_chunk_witness :
  createComment Sample.a_ts Sample.hunk ([Sample.finding "999"] ++ [Sample.finding "3"])
  = createComment {| chunks := []; deletions := 0; additions := 0;
                     from := None; to := Some "a.ts" |}
      {| content := "@@ -1 +1 @@"; changes := []; oldStart := 1; oldLines := 1;
         newStart := 1; newLines := 1 |}
      [Sample.finding "999"]
    ++ createComment {| chunks := []; deletions := 0; additions := 0;
                        from := None; to := Some "a.ts" |}
         {| content := "@@ -1 +1 @@"; changes := []; oldStart := 1; oldLines := 1;
            newStart := 1; newLines := 1 |}
         [Sample.finding "3"].
Proof.
  apply (createComment_ignores_chunk Sample.a_ts
           {| chunks := []; deletions := 0; additions := 0; from := None; to := Some "a.ts" |}).
  reflexivity.
Defined.

(** ** At most one review *)

Section ReviewOnce.

Context {W : Type}.
Variable io : Collaborators W.

Lemma prompt_calls_no_review prDetails items :
  Forall (fun c => is_review_creation c = false) (map (prompt_call prDetails) items).
Proof.
  apply Forall_forall. intros c Hc. apply in_map_iff in Hc as (item & <- & _). reflexivity.
Qed.

Lemma reviewDiff_review_last prDetails diff r :
  exists asked,
    Forall (fun c => is_review_creation c = false) asked
    /\ (calls (snd (reviewDiff io prDetails diff r)) = calls r ++ asked
        \/ exists comments,
            comments <> []
            /\ calls (snd (reviewDiff io prDetails diff r))
               = calls r ++ asked
                 ++ [CreateReview (owner prDetails) (repo prDetails) (pull_number prDetails)
                       comments "COMMENT"]).
Proof.
  destruct diff as [diff|];
    [|exists []; split; [constructor|left; cbn; now rewrite app_nil_r]].
  destruct (JsString.truthy diff) eqn:Ht.
  - destruct (analyzeCode io
                (filteredDiff (minimatch io) (excludePatterns (exclude_input io))
                   (parseDiff io diff)) prDetails r) as [[comments|e] r3] eqn:Hrun.
    + pose proof (analyzeCode_calls io _ _ _ _ _ Hrun) as Hcalls.
      rewrite (reviewDiff_run io _ _ _ _ _ Ht Hrun), submitReview_run.
      eexists. split; [apply prompt_calls_no_review|].
      destruct comments as [|c rest]; cbn [snd calls].
      * left. exact Hcalls.
      * right. exists (c :: rest). split; [discriminate|].
        rewrite Hcalls, <- app_assoc. reflexivity.
    + rewrite (reviewDiff_throw io _ _ _ _ _ Ht Hrun). cbn [snd].
      destruct (analyzeCode_sent io prDetails
                  (filteredDiff (minimatch io) (excludePatterns (exclude_input io))
                     (parseDiff io diff)) r) as (sent & rest & _ & Hcalls & _).
      rewrite Hrun in Hcalls. cbn [snd] in Hcalls.
      exists (map (prompt_call prDetails) sent).
      split; [apply prompt_calls_no_review|]. left. exact Hcalls.
  - exists []. split; [constructor|]. left. unfold reviewDiff. rewrite Ht. cbn.
    now rewrite app_nil_r.
Qed.

End ReviewOnce.

(** X17: in any run, whatever the event and whatever the collaborators
    answer, [main] creates at most one review; if it does, that is its last
    call, it carries at least one comment and the event "COMMENT". *)
Theorem main_creates_at_most_one_review :
  forall (W : Type) (io : Collaborators W) (r : Run W),
    exists earlier,
      Forall (fun c => is_review_creation c = false) earlier
      /\ (calls (snd (main io r)) = calls r ++ earlier
          \/ exists o n k comments,
              comments <> []
              /\ calls (snd (main io r))
                 = calls r ++ earlier ++ [CreateReview o n k comments "COMMENT"]).
Proof.
  intros W io r. rewrite main_calls.
  destruct (getPRDetails io r) as [[prDetails|e] r1] eqn:Hd.
  - pose proof (getPRDetails_calls io _ _ _ Hd) as Hcalls1.
    destruct (readEvent io (world r1)) as [eventData|e] eqn:He.
    + rewrite (main_try_after_details io r prDetails r1 eventData Hd He).
      assert (Hreview : forall diff w c,
                 is_review_creation c = false ->
                 exists earlier,
                   Forall (fun c => is_review_creation c = false) earlier
                   /\ (calls (snd (reviewDiff io prDetails diff
                                     {| world := w; calls := calls r1 ++ [c] |}))
                       = calls r ++ earlier
                       \/ exists o n k comments,
                           comments <> []
                           /\ calls (snd (reviewDiff io prDetails diff
                                            {| world := w; calls := calls r1 ++ [c] |}))
                              = calls r ++ earlier
                                ++ [CreateReview o n k comments "COMMENT"])).
      { intros diff w c Hc.
        destruct (reviewDiff_review_last io prDetails diff
                    {| world := w; calls := calls r1 ++ [c] |})
          as (asked & Hasked & [Heq|(comments & Hne & Heq)]).
        - exists ([PullsGet (owner prDetails) (repo prDetails) (pull_number prDetails); c]
                    ++ asked).
          split; [repeat constructor; assumption|].
          left. rewrite Heq. cbn [calls]. rewrite Hcalls1, <- !app_assoc. reflexivity.
        - exists ([PullsGet (owner prDetails) (repo prDetails) (pull_number prDetails); c]
                    ++ asked).
          split; [repeat constructor; assumption|].
          right. exists (owner prDetails), (repo prDetails), (pull_number prDetails), comments.
          split; [assumption|].
          rewrite Heq. cbn [calls]. rewrite Hcalls1, <- !app_assoc. reflexivity. }
      assert (Hthrow : forall c,
                 is_review_creation c = false ->
                 exists earlier,
                   Forall (fun c => is_review_creation c = false) earlier
                   /\ (calls r1 ++ [c] = calls r ++ earlier
                       \/ exists o n k comments,
                           comments <> []
                           /\ calls r1 ++ [c]
                              = calls r ++ earlier
                                ++ [CreateReview o n k comments "COMMENT"])).
      { intros c Hc.
        exists [PullsGet (owner prDetails) (repo prDetails) (pull_number prDetails); c].
        split; [repeat constructor; assumption|].
        left. rewrite Hcalls1, <- app_assoc. reflexivity. }
      destruct (action_is eventData "opened").
      * unfold bind, getDiff, perform.
        destruct (pulls_get_diff io _ _ _ (world r1)) as [[diff|e] w].
        -- apply Hreview. reflexivity.
        -- cbn [snd calls]. apply Hthrow. reflexivity.
      * destruct (action_is eventData "synchronize").
        -- unfold bind, perform.
           destruct (repos_compareCommits io _ _ _ _ (world r1)) as [[diff|e] w].
           ++ apply Hreview. reflexivity.
           ++ cbn [snd calls]. apply Hthrow. reflexivity.
        -- exists [PullsGet (owner prDetails) (repo prDetails) (pull_number prDetails)].
           split; [repeat constructor|]. left. exact Hcalls1.
    + rewrite (main_try_event_throw io _ _ _ _ Hd He).
      exists [PullsGet (owner prDetails) (repo prDetails) (pull_number prDetails)].
      split; [repeat constructor|]. left. exact Hcalls1.
  - rewrite (main_try_details_throw io _ _ _ Hd).
    destruct (getPRDetails_throw_calls io _ _ _ Hd) as (made & Hmade & Hall).
    exists made. split; [|left; exact Hmade].
    eapply Forall_impl; [|exact Hall]. intros [] H; try discriminate H; reflexivity.
Qed.
